(** * IA de Planilhas: the client page [web/src/app/layout.tsx]

    A shallow embedding of the page component [PlanilhasIA]: its helper
    [summarize], the slot-count effect, [handlePick], [downloadBlob] and
    the asynchronous [handleSubmit], followed by the properties of the
    request-orchestration and dual-mode response protocol.

    JavaScript strings are modelled as [string], holding the UTF-8 bytes of
    the text; numbers that the page only prints or compares are [Z] or
    [nat]; React state is one record threaded through the handlers. *)

From Stdlib Require Import ZArith Ascii String DecimalString DecimalNat DecimalZ.
From stdpp Require Import base tactics option list strings gmap.

Local Open Scope Z_scope.

(** ** The platform functions the page calls *)

Module JS.

Definition dquote : ascii := "034"%char.
Definition quote : string := String dquote "".

(** [String(n)] for an integer [n]. *)
Definition nat_toString (n : nat) : string :=
  NilEmpty.string_of_uint (Nat.to_uint n).
Definition Z_toString (z : Z) : string :=
  NilZero.string_of_int (Z.to_int z).

(** Truthiness of a string: every string but the empty one. *)
Definition truthy (s : string) : bool :=
  match s with EmptyString => false | String _ _ => true end.

(** [a || b] on strings, and on a possibly undefined left operand. *)
Definition or_else (a b : string) : string := if truthy a then a else b.
Definition opt_or_else (a : option string) (b : string) : string :=
  match a with Some s => or_else s b | None => b end.

(** [toLowerCase], on the ASCII letters. No code point outside ASCII
    lower-cases to a dot or to one of the letters c, s, v, x, l, so the
    extension test of [isAllowed] reads the same answer off this
    function as off the full Unicode one. *)
Definition lower (c : ascii) : ascii :=
  let n := nat_of_ascii c in
  if ((65 <=? n) && (n <=? 90))%nat then ascii_of_nat (n + 32) else c.

Fixpoint toLowerCase (s : string) : string :=
  match s with
  | EmptyString => EmptyString
  | String c t => String (lower c) (toLowerCase t)
  end.

Definition startsWith (s p : string) : bool := String.prefix p s.

Definition endsWith (s p : string) : bool :=
  String.prefix (String.rev p) (String.rev s).

Fixpoint includes (s p : string) : bool :=
  String.prefix p s ||
  match s with
  | EmptyString => false
  | String _ t => includes t p
  end.

(** [xs.join(sep)]. *)
Definition join (sep : string) (xs : list string) : string :=
  String.concat sep xs.

(** [s.split(sep)] for a one-character separator: never empty. *)
Fixpoint split_go (sep : ascii) (cur : string) (s : string) : list string :=
  match s with
  | EmptyString => [String.rev cur]
  | String c t =>
      if Ascii.eqb c sep then String.rev cur :: split_go sep EmptyString t
      else split_go sep (String c cur) t
  end.
Definition split (sep : ascii) (s : string) : list string :=
  split_go sep EmptyString s.

(** [xs.pop()] as an expression: the last element, if any. *)
Definition pop (xs : list string) : option string := last xs.

(** White space and line terminators of ECMAScript, as UTF-8 byte
    sequences of length one, two and three. *)
Definition ws1 (c : ascii) : bool :=
  let n := nat_of_ascii c in
  (((9 <=? n) && (n <=? 13)) || (n =? 32))%nat.

Definition ws2 (c1 c2 : ascii) : bool :=
  ((nat_of_ascii c1 =? 194) && (nat_of_ascii c2 =? 160))%nat.

Definition ws3 (c1 c2 c3 : ascii) : bool :=
  let a := nat_of_ascii c1 in
  let b := nat_of_ascii c2 in
  let c := nat_of_ascii c3 in
  (((a =? 225) && (b =? 154) && (c =? 128))
   || ((a =? 226) && (b =? 128)
       && (((128 <=? c) && (c <=? 138)) || (c =? 168) || (c =? 169) || (c =? 175)))
   || ((a =? 226) && (b =? 129) && (c =? 159))
   || ((a =? 227) && (b =? 128) && (c =? 128))
   || ((a =? 239) && (b =? 187) && (c =? 191)))%nat.

(** Drops leading white space; with [backwards] the bytes of a character
    are met last byte first, as in a reversed string. *)
Fixpoint dropSpace (backwards : bool) (s : string) : string :=
  match s with
  | String c1 t1 =>
      if ws1 c1 then dropSpace backwards t1
      else
        match t1 with
        | String c2 t2 =>
            if (if backwards then ws2 c2 c1 else ws2 c1 c2)
            then dropSpace backwards t2
            else
              match t2 with
              | String c3 t3 =>
                  if (if backwards then ws3 c3 c2 c1 else ws3 c1 c2 c3)
                  then dropSpace backwards t3
                  else s
              | EmptyString => s
              end
        | EmptyString => s
        end
  | EmptyString => EmptyString
  end.

Definition trimStart (s : string) : string := dropSpace false s.
Definition trimEnd (s : string) : string :=
  String.rev (dropSpace true (String.rev s)).
Definition trim (s : string) : string := trimEnd (trimStart s).

(** [JSON.stringify] of a string and of a [Record<string, string>]. *)
Definition hexDigit (n : nat) : ascii :=
  if (n <? 10)%nat then ascii_of_nat (48 + n) else ascii_of_nat (87 + n).

Definition escape (c : ascii) : string :=
  let n := nat_of_ascii c in
  if (n =? 34)%nat then String "\" quote
  else if (n =? 92)%nat then "\\"
  else if (n =? 8)%nat then "\b"
  else if (n =? 9)%nat then "\t"
  else if (n =? 10)%nat then "\n"
  else if (n =? 12)%nat then "\f"
  else if (n =? 13)%nat then "\r"
  else if (n <? 32)%nat
       then "\u00" +:+ String (hexDigit (n / 16)) (String (hexDigit (n mod 16)) "")
  else String c "".

Fixpoint escapeAll (s : string) : string :=
  match s with
  | EmptyString => EmptyString
  | String c t => escape c +:+ escapeAll t
  end.

Definition stringify_string (s : string) : string :=
  quote +:+ escapeAll s +:+ quote.

(** An object with string values, its properties in insertion order. *)
Abbreviation Obj := (list (string * string)).

Fixpoint obj_set (k v : string) (o : Obj) : Obj :=
  match o with
  | [] => [(k, v)]
  | (k', v') :: rest =>
      if String.eqb k' k then (k', v) :: rest else (k', v') :: obj_set k v rest
  end.

Definition obj_get (k : string) (o : Obj) : option string :=
  snd <$> List.find (λ kv, String.eqb (fst kv) k) o.

Definition keys (o : Obj) : list string := fst <$> o.

Definition stringify (o : Obj) : string :=
  "{" +:+ join "," ((λ kv, stringify_string (fst kv) +:+ ":" +:+ stringify_string (snd kv)) <$> o)
      +:+ "}".

End JS.


(** ** Data model *)

(** A user-selected local file: the page reads its [name] only. *)
Record File := { name : string; bytes : string }.

Record UploadSlot := {
  file : option File;
  alias : string;
  sheet : option string
}.

(** [Partial<UploadSlot>]: the properties a patch carries overwrite the
    slot's, the others are kept ([{ ...s, ...patch }]). *)
Record SlotPatch := {
  patch_file : option (option File);
  patch_alias : option string;
  patch_sheet : option (option string)
}.

Inductive SortOrder := asc | desc.

Record RunSummary := {
  detected_action : string;
  destination : string;
  source : string;
  key : string;
  (** read through [?.]: [None] is a summary without the property *)
  added_columns : option (list string);
  fill_missing : option string;
  rows_total : Z;
  rows_unmatched : Z;
  sort_order : option SortOrder
}.

Record Artifacts := {
  result_url : string;
  unmatched_url : option string;
  log_url : option string
}.

Record RunResponse := {
  session_id : string;
  summary : RunSummary;
  artifacts : Artifacts
}.

Inductive ChatMessage :=
| User (text when : string)
| Assistant (summary : RunSummary) (artifacts : Artifacts) (when : string).

Definition ALLOWED_EXTS : list string := [".csv"; ".xlsx"].

(** ** [summarize] *)

(** The local constants of [summarize], then the function. *)
Definition order (s : RunSummary) : string :=
  match sort_order s with Some desc => "decrescente" | _ => "crescente" end.

Definition cols (s : RunSummary) : string :=
  match added_columns s with
  | Some (c :: cs) => JS.join ", " (c :: cs)
  | _ => "colunas selecionadas"
  end.

Definition fill (s : RunSummary) : string :=
  match fill_missing s with
  | Some v =>
      if JS.truthy v
      then " Ausentes preenchidos com " +:+ JS.quote +:+ v +:+ JS.quote +:+ "."
      else ""
  | None => ""
  end.

Definition unmatched (s : RunSummary) : string :=
  " Sem correspondência: " +:+ JS.Z_toString (rows_unmatched s) +:+ ".".

Definition summarize (s : RunSummary) : string :=
  if String.eqb (detected_action s) "SORT" then
    "Planilha " +:+ JS.quote +:+ destination s +:+ JS.quote
      +:+ " ordenada por " +:+ JS.quote +:+ key s +:+ JS.quote
      +:+ " em ordem " +:+ order s
      +:+ ". Total de linhas: " +:+ JS.Z_toString (rows_total s) +:+ "."
  else
    "Mesclagem concluída: colunas " +:+ cols s
      +:+ " copiadas de " +:+ JS.quote +:+ source s +:+ JS.quote
      +:+ " para " +:+ JS.quote +:+ destination s +:+ JS.quote
      +:+ " usando a chave " +:+ JS.quote +:+ key s +:+ JS.quote
      +:+ ". Total de linhas: " +:+ JS.Z_toString (rows_total s) +:+ "."
      +:+ unmatched s +:+ fill s.

(** ** The state of the page *)

(** The [useState] and [useLocalStore] cells of [PlanilhasIA], the texts
    handed to [push] in order, and the files saved by [downloadBlob]
    (the [download] name of the clicked link, and the blob behind it).
    [totalSlots] is [None] when the stored number is [NaN] or [null]. *)
Record State := {
  sessionId : string;
  messages : list ChatMessage;
  slots : list UploadSlot;
  totalSlots : option Z;
  autoDownload : bool;
  prompt : string;
  loading : bool;
  toasts : list string;
  downloads : list (string * string)
}.

Definition setSessionId (v : string) (st : State) : State :=
  {| sessionId := v; messages := messages st; slots := slots st;
     totalSlots := totalSlots st; autoDownload := autoDownload st;
     prompt := prompt st; loading := loading st; toasts := toasts st;
     downloads := downloads st |}.

Definition setMessages (f : list ChatMessage → list ChatMessage) (st : State) : State :=
  {| sessionId := sessionId st; messages := f (messages st); slots := slots st;
     totalSlots := totalSlots st; autoDownload := autoDownload st;
     prompt := prompt st; loading := loading st; toasts := toasts st;
     downloads := downloads st |}.

Definition setSlots (f : list UploadSlot → list UploadSlot) (st : State) : State :=
  {| sessionId := sessionId st; messages := messages st; slots := f (slots st);
     totalSlots := totalSlots st; autoDownload := autoDownload st;
     prompt := prompt st; loading := loading st; toasts := toasts st;
     downloads := downloads st |}.

Definition setTotalSlots (v : option Z) (st : State) : State :=
  {| sessionId := sessionId st; messages := messages st; slots := slots st;
     totalSlots := v; autoDownload := autoDownload st;
     prompt := prompt st; loading := loading st; toasts := toasts st;
     downloads := downloads st |}.

Definition setPrompt (v : string) (st : State) : State :=
  {| sessionId := sessionId st; messages := messages st; slots := slots st;
     totalSlots := totalSlots st; autoDownload := autoDownload st;
     prompt := v; loading := loading st; toasts := toasts st;
     downloads := downloads st |}.

Definition setLoading (v : bool) (st : State) : State :=
  {| sessionId := sessionId st; messages := messages st; slots := slots st;
     totalSlots := totalSlots st; autoDownload := autoDownload st;
     prompt := prompt st; loading := v; toasts := toasts st;
     downloads := downloads st |}.

(** [push]: the notice joins the queue; its timer is not modelled. *)
Definition push (text : string) (st : State) : State :=
  {| sessionId := sessionId st; messages := messages st; slots := slots st;
     totalSlots := totalSlots st; autoDownload := autoDownload st;
     prompt := prompt st; loading := loading st; toasts := toasts st ++ [text];
     downloads := downloads st |}.

(** The link [a] of [downloadBlob], clicked. *)
Definition click (filename blob : string) (st : State) : State :=
  {| sessionId := sessionId st; messages := messages st; slots := slots st;
     totalSlots := totalSlots st; autoDownload := autoDownload st;
     prompt := prompt st; loading := loading st; toasts := toasts st;
     downloads := downloads st ++ [(filename, blob)] |}.

(** ** The slot-count effect *)

(** [Math.min(5, Math.max(1, totalSlots || 1))] *)
Definition clamped (totalSlots : option Z) : Z :=
  Z.min 5 (Z.max 1 (match totalSlots with
                    | None | Some 0 => 1
                    | Some n => n
                    end)).

Definition blankSlot : UploadSlot :=
  {| file := None; alias := ""; sheet := None |}.

(** The effect keyed on [totalSlots] and [slots.length]. *)
Definition slotCountEffect (st : State) : State :=
  let clamped := clamped (totalSlots st) in
  if Z.of_nat (length (slots st)) <? clamped then
    setSlots (λ prev, prev ++ replicate (Z.to_nat (clamped - Z.of_nat (length prev))) blankSlot) st
  else if Z.of_nat (length (slots st)) >? clamped then
    setSlots (λ prev, take (Z.to_nat clamped) prev) st
  else st.

(** ** Picking a file *)

Definition applyPatch (s : UploadSlot) (patch : SlotPatch) : UploadSlot :=
  {| file := default (file s) (patch_file patch);
     alias := default (alias s) (patch_alias patch);
     sheet := default (sheet s) (patch_sheet patch) |}.

Definition updateSlot (i : nat) (patch : SlotPatch) (st : State) : State :=
  setSlots (λ prev, imap (λ idx s, if decide (idx = i) then applyPatch s patch else s) prev) st.

Definition isAllowed (f : option File) : bool :=
  match f with
  | Some f => existsb (λ ext, JS.endsWith (JS.toLowerCase (name f)) ext) ALLOWED_EXTS
  | None => false
  end.

Definition filePatch (f : option File) : SlotPatch :=
  {| patch_file := Some f; patch_alias := None; patch_sheet := None |}.

Definition unsupportedText (f : File) : string :=
  "Tipo não suportado ("
    +:+ JS.opt_or_else (JS.pop (JS.split "." (name f))) "desconhecido"
    +:+ "). Use CSV ou XLSX.".

Definition handlePick (i : nat) (f : option File) (st : State) : State :=
  match f with
  | None => updateSlot i (filePatch None) st
  | Some f' =>
      if negb (isAllowed f) then push (unsupportedText f') st
      else updateSlot i (filePatch (Some f')) st
  end.

Definition newChat (fresh : string) (st : State) : State :=
  setMessages (λ _, []) (setSessionId fresh st).

(** ** Handlers that may throw *)

(** A thrown value: an [Error] with its [message], or anything else. *)
Inductive Thrown := ErrorObject (message : string) | OtherValue.

(** How a call or an awaited promise ends. *)
Inductive Result (A : Type) := Returns (a : A) | Throws (e : Thrown).
Arguments Returns {A} a.
Arguments Throws {A} e.

(** How a piece of a handler ends, and the state it leaves: state set
    before a throw stays set. *)
Inductive Completion (A : Type) :=
| Normal (a : A) (st : State)
| Abrupt (e : Thrown) (st : State).
Arguments Normal {A} a st.
Arguments Abrupt {A} e st.

Definition Action (A : Type) : Type := State → Completion A.

(** The state a piece of a handler leaves, however it ends. *)
Definition stateOf {A} (c : Completion A) : State :=
  match c with Normal _ st => st | Abrupt _ st => st end.

Definition ret {A} (a : A) : Action A := λ st, Normal a st.

Definition bind {A B} (m : Action A) (k : A → Action B) : Action B :=
  λ st, match m st with
        | Normal a st' => k a st'
        | Abrupt e st' => Abrupt e st'
        end.

Notation "x <- m ;; k" := (bind m (λ x, k))
  (at level 100, m at next level, right associativity, only parsing).
Notation "m ;; k" := (bind m (λ _, k))
  (at level 100, right associativity, only parsing).

Definition throw {A} (e : Thrown) : Action A := λ st, Abrupt e st.

(** A state setter, as a statement. *)
Definition run (f : State → State) : Action unit := λ st, Normal tt (f st).

(** [await p], or a call that may throw. *)
Definition settle {A} (r : Result A) : Action A :=
  match r with Returns a => ret a | Throws e => throw e end.

(** [try { body } catch (e) { handler(e) }] *)
Definition tryCatch {A} (body : Action A) (handler : Thrown → Action A) : Action A :=
  λ st, match body st with
        | Normal a st' => Normal a st'
        | Abrupt e st' => handler e st'
        end.

(** [try { body } finally { cleanup }] *)
Definition tryFinally {A} (body : Action A) (cleanup : Action unit) : Action A :=
  λ st, match body st with
        | Normal a st' =>
            match cleanup st' with
            | Normal _ st'' => Normal a st''
            | Abrupt e st'' => Abrupt e st''
            end
        | Abrupt e st' =>
            match cleanup st' with
            | Normal _ st'' => Abrupt e st''
            | Abrupt e' st'' => Abrupt e' st''
            end
        end.

(** ** The request *)

Inductive FormValue := FileValue (f : File) | TextValue (s : string).

(** [FormData]: the appended entries, in order. *)
Abbreviation FormData := (list (string * FormValue)).

Definition fieldName (idx : nat) : string :=
  "file" +:+ JS.nat_toString (idx + 1).

(** What the [forEach] of [handleSubmit] fills in. *)
Record Parts := {
  form : FormData;
  aliases : JS.Obj;
  sheets : JS.Obj
}.

Definition noParts : Parts := {| form := []; aliases := []; sheets := [] |}.

(** [s.file!] as [append] takes it. A slot without a file cannot be among
    [used]; [append] would send the text of [undefined] for it. *)
Definition fileValue (s : UploadSlot) : FormValue :=
  match file s with
  | Some f => FileValue f
  | None => TextValue "undefined"
  end.

(** [s.alias?.trim() || `planilha_${idx + 1}`] *)
Definition aliasValue (s : UploadSlot) (idx : nat) : string :=
  JS.or_else (JS.trim (alias s)) ("planilha_" +:+ JS.nat_toString (idx + 1)).

(** [s.sheet], when [if (s.sheet)] lets it through. *)
Definition selected (s : UploadSlot) : option string :=
  match sheet s with
  | Some sh => if JS.truthy sh then Some sh else None
  | None => None
  end.

(** One round of the [forEach] callback. *)
Definition eachSlot (s : UploadSlot) (idx : nat) (p : Parts) : Parts :=
  {| form := form p ++ [(fieldName idx, fileValue s)];
     aliases := JS.obj_set (fieldName idx) (aliasValue s idx) (aliases p);
     sheets := match selected s with
               | Some sh => JS.obj_set (fieldName idx) sh (sheets p)
               | None => sheets p
               end |}.

Fixpoint forEach (used : list UploadSlot) (idx : nat) (p : Parts) : Parts :=
  match used with
  | [] => p
  | s :: rest => forEach rest (S idx) (eachSlot s idx p)
  end.

Definition usedSlots (slots : list UploadSlot) : list UploadSlot :=
  filter (λ s, is_Some (file s)) slots.

Definition buildParts (used : list UploadSlot) : Parts := forEach used 0%nat noParts.

Definition buildForm (used : list UploadSlot) (currentPrompt sessionId : string)
    (autoDownload : bool) : FormData :=
  let p := buildParts used in
  form p
    ++ [("aliases", TextValue (JS.stringify (aliases p)))]
    ++ (if bool_decide (JS.keys (sheets p) = []) then []
        else [("sheets", TextValue (JS.stringify (sheets p)))])
    ++ [("prompt", TextValue currentPrompt);
        ("session_id", TextValue sessionId);
        ("download", TextValue (if autoDownload then "1" else "0"));
        ("out_format", TextValue "xlsx")].

(** [form.get(name)]: the first entry of that name. *)
Definition formGet (name : string) (form : FormData) : option FormValue :=
  snd <$> List.find (λ kv, String.eqb (fst kv) name) form.

(** [form.has(name)] *)
Definition formHas (name : string) (form : FormData) : bool :=
  bool_decide (is_Some (formGet name form)).

(** ** The response *)

(** The body of a failure reply, as the page reads it: [{ detail?: string }]. *)
Record ErrorBody := { detail : option string }.

(** A reply of the service. [headers] holds the header names in lower
    case; [json_error] and [json_run] are what [res.json()] settles to at
    the type each branch reads it at ([None] is the JSON [null]), [blob]
    what [res.blob()] settles to. *)
Record Response := {
  ok : bool;
  headers : JS.Obj;
  json_error : Result (option ErrorBody);
  json_run : Result (option RunResponse);
  blob : Result string
}.

(** [res.headers.get(name)] *)
Definition headersGet (name : string) (res : Response) : option string :=
  JS.obj_get (JS.toLowerCase name) (headers res).

(** The regular expression of [downloadBlob], by hand: the literal
    [filename=] in any case, an optional double quote, then the longest
    run of characters other than the double quote, which is the captured
    group and may not be empty, then an optional double quote. [matchAt]
    tries one position, [matchFilename] the positions from left to right. *)
Fixpoint literalCI (lit s : string) : option string :=
  match lit, s with
  | EmptyString, _ => Some s
  | String a lit', String b s' =>
      if Ascii.eqb (JS.lower b) (JS.lower a) then literalCI lit' s' else None
  | String _ _, EmptyString => None
  end.

Fixpoint notQuote (s : string) : string :=
  match s with
  | EmptyString => EmptyString
  | String c t => if Ascii.eqb c JS.dquote then EmptyString else String c (notQuote t)
  end.

Definition matchAt (s : string) : option string :=
  match literalCI "filename=" s with
  | Some r =>
      let r' := match r with
                | String c t => if Ascii.eqb c JS.dquote then t else r
                | EmptyString => r
                end in
      let group := notQuote r' in
      if JS.truthy group then Some group else None
  | None => None
  end.

Fixpoint matchFilename (s : string) : option string :=
  match matchAt s with
  | Some group => Some group
  | None =>
      match s with
      | EmptyString => None
      | String _ t => matchFilename t
      end
  end.

Definition downloadName (res : Response) : string :=
  let cd := JS.opt_or_else (headersGet "content-disposition" res) "" in
  let m := matchFilename cd in
  JS.opt_or_else m
    (if match headersGet "content-type" res with
        | Some ct => JS.includes ct "csv"
        | None => false
        end
     then "planilhanova.csv" else "planilhanova.xlsx").

Definition downloadBlob (res : Response) (blob : string) (st : State) : State :=
  click (downloadName res) blob st.

Definition placeholder : RunSummary :=
  {| detected_action := "PROCESS";
     destination := "(arquivo gerado)";
     source := "";
     key := "";
     added_columns := Some [];
     fill_missing := None;
     rows_total := 0;
     rows_unmatched := 0;
     sort_order := None |}.

Definition inlineArtifacts : Artifacts :=
  {| result_url := ""; unmatched_url := Some ""; log_url := Some "" |}.

Definition XLSX_MIME : string :=
  "application/vnd.openxmlformats-officedocument.spreadsheetml.sheet".

(** ** [handleSubmit] *)

(** An [async] handler stopped at its [await fetch(...)]: either it
    returned before, or it left [st], sent [request] and will go on with
    [resume] from whatever the state is when the reply arrives. *)
Inductive Async :=
| Settled (c : Completion unit)
| Awaiting (st : State) (request : FormData) (resume : Result Response → Action unit).

Section Page.

(** [JSON.parse] of the summary header, read at [RunSummary | null]:
    [Returns None] is a falsy value such as [null]. *)
Variable JSON_parse : string → Result (option RunSummary).

(** The message of the [TypeError] for reading a property of [null]. *)
Variable nullReadMessage : string.

(** [let detail = ...; try { const j = await res.json(); detail = j?.detail || detail } catch {}] *)
Definition errorDetail (res : Response) : Action string :=
  let fallback := "Erro ao processar." in
  tryCatch
    (j <- settle (json_error res) ;;
     ret (JS.opt_or_else (j ≫= detail) fallback))
    (λ _, ret fallback).

(** [summaryHeader ? JSON.parse(summaryHeader) : null] *)
Definition readSummary (res : Response) : Result (option RunSummary) :=
  match headersGet "X-Run-Summary" res with
  | Some summaryHeader =>
      if JS.truthy summaryHeader then JSON_parse summaryHeader else Returns None
  | None => Returns None
  end.

(** [res.headers.get("content-type") || ""] *)
Definition ctype (res : Response) : string :=
  JS.opt_or_else (headersGet "content-type" res) "".

(** The test of branch (A), a file sent back directly. *)
Definition isFile (ctype : string) : bool :=
  JS.includes ctype XLSX_MIME || JS.includes ctype "text/csv".

(** The [try] block from the reply on. [sessionId] is the identifier the
    handler closed over when it was called. *)
Definition onResponse (sessionId whenReply : string) (res : Response) : Action unit :=
  if negb (ok res) then
    detail <- errorDetail res ;;
    run (push detail)
  else
    if isFile (ctype res) then
      summary <- settle (readSummary res) ;;
      blob <- settle (blob res) ;;
      run (downloadBlob res blob) ;;
      run (setMessages (λ prev,
             prev ++ [Assistant (default placeholder summary) inlineArtifacts whenReply]))
    else
      data <- settle (json_run res) ;;
      (match data with
       | Some d =>
           if JS.truthy (session_id d) && negb (String.eqb (session_id d) sessionId)
           then run (setSessionId (session_id d))
           else ret tt
       | None => ret tt
       end) ;;
      match data with
      | Some d =>
          run (setMessages (λ prev,
                 prev ++ [Assistant (summary d) (artifacts d) whenReply]))
      | None => throw (ErrorObject nullReadMessage)
      end.

(** [catch (e) { ... }] *)
Definition onCatch (e : Thrown) : Action unit :=
  match e with
  | ErrorObject message => run (push message)
  | OtherValue => run (push "Erro desconhecido ao processar.")
  end.

(** The handler from the [await] on, with its [catch] and [finally]. *)
Definition resumeSubmit (sessionId whenReply : string) (reply : Result Response) : Action unit :=
  tryFinally
    (tryCatch
       (res <- settle reply ;;
        onResponse sessionId whenReply res)
       onCatch)
    (run (setLoading false)).

(** [handleSubmit], called in state [st]; [whenUser] and [whenReply] are
    the two readings of the clock. The statements of the [try] block
    before the [await] are setters and cannot throw. *)
Definition handleSubmit (whenUser whenReply : string) (st : State) : Async :=
  let used := usedSlots (slots st) in
  if (length used <? 1)%nat then
    Settled (run (push "Envie pelo menos 1 arquivo (CSV/XLSX).") st)
  else
    let currentPrompt := prompt st in
    let st := setPrompt "" st in
    let st := setLoading true st in
    let st := setMessages (λ prev, prev ++ [User currentPrompt whenUser]) st in
    let form := buildForm used currentPrompt (sessionId st) (autoDownload st) in
    Awaiting st form (resumeSubmit (sessionId st) whenReply).

(** A whole submission against a service [fetch], nothing else touching
    the state while the request is out. *)
Definition submit (fetch : FormData → Result Response)
    (whenUser whenReply : string) (st : State) : Completion unit :=
  match handleSubmit whenUser whenReply st with
  | Settled c => c
  | Awaiting st' request resume => resume (fetch request) st'
  end.

End Page.

(** ** Sample values *)

Module Sample.

Definition parse (h : string) : Result (option RunSummary) :=
  if String.eqb h "null" then Returns None else Throws (ErrorObject "Unexpected token").

Definition a_xlsx : File := {| name := "a.xlsx"; bytes := "A" |}.
Definition b_csv : File := {| name := "b.csv"; bytes := "B" |}.
Definition notes_txt : File := {| name := "notes.txt"; bytes := "N" |}.

Definition page : State :=
  {| sessionId := "abc";
     messages := [];
     slots := [ {| file := Some a_xlsx; alias := "usuarios_id"; sheet := None |};
                {| file := Some b_csv; alias := "usuarios_cpf"; sheet := None |} ];
     totalSlots := Some 2;
     autoDownload := true;
     prompt := "merge by name";
     loading := false;
     toasts := [];
     downloads := [] |}.

(** The same page with the auto-download box unticked. *)
Definition quiet : State :=
  {| sessionId := "abc";
     messages := [];
     slots := slots page;
     totalSlots := Some 2;
     autoDownload := false;
     prompt := "merge by name";
     loading := false;
     toasts := [];
     downloads := [] |}.

Definition csvReply : Response :=
  {| ok := true;
     headers := [("content-type", "text/csv")];
     json_error := Throws OtherValue;
     json_run := Throws OtherValue;
     blob := Returns "id,nome" |}.

Definition sorted : RunSummary :=
  {| detected_action := "SORT"; destination := "x"; source := ""; key := "nome";
     added_columns := Some []; fill_missing := None;
     rows_total := 10; rows_unmatched := 0; sort_order := Some desc |}.

Definition jsonReply (sid : string) : Response :=
  {| ok := true;
     headers := [("content-type", "application/json")];
     json_error := Throws OtherValue;
     json_run := Returns (Some {| session_id := sid; summary := sorted;
                                  artifacts := {| result_url := "/files/x.xlsx";
                                                  unmatched_url := None;
                                                  log_url := None |} |});
     blob := Throws OtherValue |}.

Definition failure (d : option string) : Response :=
  {| ok := false;
     headers := [("content-type", "application/json")];
     json_error := Returns (Some {| detail := d |});
     json_run := Throws OtherValue;
     blob := Throws OtherValue |}.

End Sample.

(** ** Notices and their timers: [useToasts] *)

(** The queue of [useToasts] with the identifiers the page gives its
    notices. An identifier is the number [Date.now() + Math.random()];
    the queue only ever compares two of them, so their type is left open. *)
Module Toasts.

Record ToastT (Id : Type) := { id : Id; text : string }.
Arguments id {Id} _.
Arguments text {Id} _.

(** [setToasts((t) => [...t, { id, text }])] *)
Definition push {Id} (i : Id) (t : string) (toasts : list (ToastT Id)) : list (ToastT Id) :=
  toasts ++ [{| id := i; text := t |}].

(** The callback of [setTimeout]: [setToasts((t) => t.filter((x) => x.id !== id))] *)
Definition expire {Id} `{EqDecision Id} (i : Id) (toasts : list (ToastT Id)) : list (ToastT Id) :=
  filter (λ x, id x ≠ i) toasts.

End Toasts.

(** ** The browser store: [useLocalStore] and the effect run on mount *)

(** [localStorage]: strings under string keys. *)
Abbreviation Storage := (gmap string string).

Section LocalStore.

(** [JSON.stringify] and [JSON.parse] at the type of the stored state. *)
Context {T : Type} (stringify : T → string) (parse : string → Result T).

(** The initializer of [useState] in the browser:
    [raw ? JSON.parse(raw) : initial]. *)
Definition initialState (key : string) (initial : T) (ls : Storage) : Result T :=
  match ls !! key with
  | Some raw => if JS.truthy raw then parse raw else Returns initial
  | None => Returns initial
  end.

(** The effect: [localStorage.setItem(key, JSON.stringify(state))]. *)
Definition persist (key : string) (state : T) (ls : Storage) : Storage :=
  <[key := stringify state]> ls.

End LocalStore.

(** [s.replace(/-/g, "")] *)
Fixpoint removeDashes (s : string) : string :=
  match s with
  | EmptyString => EmptyString
  | String c t =>
      if Ascii.eqb c "-" then removeDashes t else String c (removeDashes t)
  end.

(** [Object.keys(localStorage).filter((k) => k.startsWith("planilhas.chat."))] *)
Definition chatKeys (ls : Storage) : list string :=
  List.filter (λ k, JS.startsWith k "planilhas.chat.") (fst <$> map_to_list ls).

(** [ks.forEach((k) => localStorage.removeItem(k))] *)
Definition removeItems (ks : list string) (ls : Storage) : Storage :=
  foldl (λ m k, delete k m) ls ks.

(** The effect run once on mount, [uuid] being what [crypto.randomUUID()]
    returns: a fresh session identifier, and the chat entries of earlier
    versions purged from the store. *)
Definition mountEffect (uuid : string) (st : State) (ls : Storage) : State * Storage :=
  (setSessionId (removeDashes uuid) st, removeItems (chatKeys ls) ls).

(** ** What an assistant entry offers for download *)

(** The links under an assistant entry, as (label, href): the result and
    the unmatched rows, each only when its address is truthy; the log is
    never offered. [API] is the base address of the service. *)
Definition shownLinks (API : string) (a : Artifacts) : list (string * string) :=
  (if JS.truthy (result_url a)
   then [("Baixar resultado", API +:+ result_url a)] else [])
  ++ (match unmatched_url a with
      | Some u =>
          if JS.truthy u then [("Baixar sem correspondência", API +:+ u)] else []
      | None => []
      end).

(** ** The [forEach] in closed form *)

(** What the [forEach] adds to the form, to [aliases] and to [sheets] for
    the slots [used], the first of which has index [idx]; the lemmas below
    show that the loop computes exactly these. *)
Definition fileEntries (idx : nat) (used : list UploadSlot) : FormData :=
  imap (λ i s, (fieldName (idx + i), fileValue s)) used.


Fixpoint sheetEntries (idx : nat) (used : list UploadSlot) : JS.Obj :=
  match used with
  | [] => []
  | s :: rest =>
      match selected s with
      | Some sh => (fieldName idx, sh) :: sheetEntries (S idx) rest
      | None => sheetEntries (S idx) rest
      end
  end.

(** The names an object holds are those of positions before [idx]. *)
Definition below (idx : nat) (o : JS.Obj) : Prop :=
  ∀ k, k ∈ JS.keys o → ∃ j, (j < idx)%nat ∧ k = fieldName j.

(** * Properties *)

(** ** Summaries *)


Lemma string_app_nonempty (a b : string) : a ≠ "" → a +:+ b ≠ "".
Proof. destruct a; [done | discriminate]. Qed.

Lemma string_app_nil_r (a : string) : a +:+ "" = a.
Proof.
  induction a as [|c a IH]; [reflexivity|].
  change (String c (a +:+ "") = String c a). by rewrite IH.
Qed.

Lemma string_app_assoc (a b c : string) : (a +:+ b) +:+ c = a +:+ (b +:+ c).
Proof.
  induction a as [|x a IH]; [reflexivity|].
  change (String x ((a +:+ b) +:+ c) = String x (a +:+ (b +:+ c))). by rewrite IH.
Qed.


(** The sentences of two summaries, as the page shows them. *)
Example summarize_sorted :
  summarize Sample.sorted =
    "Planilha " +:+ JS.quote +:+ "x" +:+ JS.quote +:+ " ordenada por "
      +:+ JS.quote +:+ "nome" +:+ JS.quote
      +:+ " em ordem decrescente. Total de linhas: 10.".
Proof. reflexivity. Qed.

Example summarize_placeholder :
  summarize placeholder =
    "Mesclagem concluída: colunas colunas selecionadas copiadas de "
      +:+ JS.quote +:+ JS.quote +:+ " para " +:+ JS.quote +:+ "(arquivo gerado)" +:+ JS.quote
      +:+ " usando a chave " +:+ JS.quote +:+ JS.quote
      +:+ ". Total de linhas: 0. Sem correspondência: 0.".
Proof. reflexivity. Qed.

(** ** Slot count *)

Lemma clamped_range (t : option Z) : 1 ≤ clamped t ≤ 5.
Proof. unfold clamped. destruct t as [[]|]; lia. Qed.

Lemma clamped_Some (n : Z) : clamped (Some n) = Z.min 5 (Z.max 1 n).
Proof. unfold clamped. destruct n; lia. Qed.

(** C2. After the slot-count effect the list has as many slots as the
    request clamped to 1..5: a request in range gives that many, one below
    1 (or none) gives 1, one above 5 gives 5. A shorter list grows by blank
    slots at its end and a longer one is cut to its first slots. *)
Theorem slot_count_clamped (st : State) :
  Z.of_nat (length (slots (slotCountEffect st))) = clamped (totalSlots st)
  ∧ (∀ n, totalSlots st = Some n →
       (1 ≤ n ≤ 5 → clamped (totalSlots st) = n)
       ∧ (n < 1 → clamped (totalSlots st) = 1)
       ∧ (5 < n → clamped (totalSlots st) = 5))
  ∧ (totalSlots st = None → clamped (totalSlots st) = 1)
  ∧ (Z.of_nat (length (slots st)) < clamped (totalSlots st) →
     slots (slotCountEffect st) =
       slots st ++ replicate (Z.to_nat (clamped (totalSlots st)) - length (slots st)) blankSlot)
  ∧ (clamped (totalSlots st) < Z.of_nat (length (slots st)) →
     slots (slotCountEffect st) = take (Z.to_nat (clamped (totalSlots st))) (slots st))
  ∧ (∀ s, s ∈ replicate (Z.to_nat (clamped (totalSlots st)) - length (slots st)) blankSlot →
       alias s = "" ∧ file s = None).
Proof.
  pose proof (clamped_range (totalSlots st)) as Hr.
  unfold slotCountEffect.
  split; [|split; [|split; [|split; [|split]]]].
  - destruct (Z.ltb_spec (Z.of_nat (length (slots st))) (clamped (totalSlots st))).
    + simpl. rewrite length_app, length_replicate. lia.
    + destruct (Z.gtb_spec (Z.of_nat (length (slots st))) (clamped (totalSlots st))).
      * simpl. rewrite length_take. lia.
      * lia.
  - intros n ->. rewrite clamped_Some. lia.
  - intros ->. reflexivity.
  - intros Hlt. destruct (Z.ltb_spec (Z.of_nat (length (slots st))) (clamped (totalSlots st))); [|lia].
    simpl. do 2 f_equal. lia.
  - intros Hgt. destruct (Z.ltb_spec (Z.of_nat (length (slots st))) (clamped (totalSlots st))); [lia|].
    destruct (Z.gtb_spec (Z.of_nat (length (slots st))) (clamped (totalSlots st))); [|lia].
    reflexivity.
  - intros s Hs. apply elem_of_replicate in Hs as [-> _]. done.
Qed.

Example slot_count_grows :
  slots (slotCountEffect (setTotalSlots (Some 4) Sample.page))
  = slots Sample.page ++ [blankSlot; blankSlot].
Proof. reflexivity. Qed.

Example slot_count_shrinks :
  slots (slotCountEffect (setTotalSlots (Some (-3)) Sample.page))
  = take 1 (slots Sample.page).
Proof. reflexivity. Qed.

(** ** File picking *)

Lemma isAllowed_Some (f : File) :
  isAllowed (Some f)
  = JS.endsWith (JS.toLowerCase (name f)) ".csv"
    || JS.endsWith (JS.toLowerCase (name f)) ".xlsx".
Proof. unfold isAllowed, ALLOWED_EXTS. simpl. by rewrite orb_false_r. Qed.

(** C8, as the page has it. A file whose lower-cased name ends in neither
    .csv nor .xlsx raises one notification naming its extension and is not
    stored: the slot list is left exactly as it was, so a slot that was
    empty stays empty and one that held a file keeps it; the other slots,
    the transcript and the loading flag are untouched. *)
Theorem unsupported_pick_refused (i : nat) (f : File) (st : State) :
  JS.endsWith (JS.toLowerCase (name f)) ".csv" = false →
  JS.endsWith (JS.toLowerCase (name f)) ".xlsx" = false →
  toasts (handlePick i (Some f) st) = toasts st ++ [unsupportedText f]
  ∧ slots (handlePick i (Some f) st) = slots st
  ∧ messages (handlePick i (Some f) st) = messages st
  ∧ loading (handlePick i (Some f) st) = loading st
  ∧ prompt (handlePick i (Some f) st) = prompt st
  ∧ (∀ s, slots st !! i = Some s → file s = None →
       file <$> slots (handlePick i (Some f) st) !! i = Some None).
Proof.
  intros Hcsv Hxlsx. unfold handlePick.
  rewrite isAllowed_Some, Hcsv, Hxlsx. simpl.
  repeat split; try reflexivity.
  intros s Hs Hf. simpl. rewrite Hs. simpl. by rewrite Hf.
Qed.

Lemma unsupported_pick_refused_witness :
  toasts (handlePick 1 (Some Sample.notes_txt) Sample.page)
  = ["Tipo não suportado (txt). Use CSV ou XLSX."]
  ∧ slots (handlePick 1 (Some Sample.notes_txt) Sample.page) = slots Sample.page.
Proof.
  pose proof (unsupported_pick_refused 1 Sample.notes_txt Sample.page
                eq_refl eq_refl) as (Ht & Hs & _).
  split; [exact Ht | exact Hs].
Defined.

(** C8, as the specification words it, fails where the slot already held a file:
    the refused pick leaves that file in the slot, not an empty slot. *)
Lemma refused_pick_keeps_earlier_file :
  isAllowed (Some Sample.notes_txt) = false
  ∧ file <$> slots Sample.page !! 0%nat = Some (Some Sample.a_xlsx)
  ∧ file <$> slots (handlePick 0 (Some Sample.notes_txt) Sample.page) !! 0%nat
    = Some (Some Sample.a_xlsx).
Proof. repeat split. Qed.

Example supported_pick_stored :
  file <$> slots (handlePick 1 (Some Sample.a_xlsx) Sample.page) !! 1%nat
  = Some (Some Sample.a_xlsx).
Proof. reflexivity. Qed.

(** ** The request: positional fields, aliases and sheets *)

Lemma nat_toString_inj (i j : nat) :
  JS.nat_toString i = JS.nat_toString j → i = j.
Proof.
  unfold JS.nat_toString. intros H.
  apply DecimalNat.Unsigned.to_uint_inj.
  apply (f_equal NilEmpty.uint_of_string) in H.
  rewrite !NilEmpty.usu in H. congruence.
Qed.

Lemma fieldName_inj (i j : nat) : fieldName i = fieldName j → i = j.
Proof.
  unfold fieldName. intros H. apply (inj (String.app "file")) in H.
  apply nat_toString_inj in H. lia.
Qed.

Lemma fieldName_head (i : nat) :
  ∃ t, fieldName i = String "f" t.
Proof. unfold fieldName. eexists. reflexivity. Qed.

Lemma obj_set_fresh (k v : string) (o : JS.Obj) :
  k ∉ JS.keys o → JS.obj_set k v o = o ++ [(k, v)].
Proof.
  induction o as [|[k' v'] o IH]; intros Hk; [reflexivity|].
  simpl. unfold JS.keys in *. rewrite fmap_cons in Hk. simpl in Hk.
  apply not_elem_of_cons in Hk as [Hne Hk].
  destruct (String.eqb_spec k' k) as [->|_]; [done|].
  by rewrite IH.
Qed.

Lemma obj_get_app_fresh (k v : string) (o : JS.Obj) :
  k ∉ JS.keys o → JS.obj_get k (o ++ [(k, v)]) = Some v.
Proof.
  unfold JS.obj_get, JS.keys.
  induction o as [|[k' v'] o IH]; intros Hk; simpl.
  - by rewrite String.eqb_refl.
  - rewrite fmap_cons in Hk. simpl in Hk.
    apply not_elem_of_cons in Hk as [Hne Hk].
    destruct (String.eqb_spec k' k) as [->|_]; [done|]. by apply IH.
Qed.

Lemma obj_get_app_l (k : string) (o o' : JS.Obj) (v : string) :
  JS.obj_get k o = Some v → JS.obj_get k (o ++ o') = Some v.
Proof.
  unfold JS.obj_get.
  induction o as [|[k' v'] o IH]; simpl; [done|].
  destruct (String.eqb k' k); [done | apply IH].
Qed.

Lemma fileEntries_cons idx s used :
  fileEntries idx (s :: used) = (fieldName idx, fileValue s) :: fileEntries (S idx) used.
Proof.
  unfold fileEntries. rewrite imap_cons, Nat.add_0_r. f_equal.
  apply imap_ext. intros i x _. simpl. by rewrite Nat.add_succ_r.
Qed.


Lemma forEach_form used : ∀ idx p,
  form (forEach used idx p) = form p ++ fileEntries idx used.
Proof.
  induction used as [|s used IH]; intros idx p; simpl.
  - by rewrite app_nil_r.
  - rewrite IH, fileEntries_cons. simpl. by rewrite <- app_assoc.
Qed.

Lemma below_fresh idx o : below idx o → fieldName idx ∉ JS.keys o.
Proof.
  intros Hb Hin. destruct (Hb _ Hin) as (j & Hj & Heq).
  apply fieldName_inj in Heq. lia.
Qed.

Lemma below_snoc idx o v :
  below idx o → below (S idx) (o ++ [(fieldName idx, v)]).
Proof.
  intros Hb k. unfold JS.keys. rewrite fmap_app, elem_of_app. simpl.
  intros [Hk | Hk].
  - destruct (Hb _ Hk) as (j & Hj & ->). exists j. split; [lia | done].
  - apply list_elem_of_singleton in Hk as ->. exists idx. split; [lia | done].
Qed.

Lemma below_mono idx o : below idx o → below (S idx) o.
Proof. intros Hb k Hk. destruct (Hb _ Hk) as (j & Hj & ->). exists j. split; [lia|done]. Qed.


Lemma buildParts_form used : form (buildParts used) = fileEntries 0 used.
Proof. unfold buildParts. by rewrite forEach_form. Qed.





Lemma fileEntries_names used : ∀ idx,
  fst <$> fileEntries idx used = fieldName <$> seq idx (length used).
Proof.
  induction used as [|s used IH]; intros idx; [reflexivity|].
  rewrite fileEntries_cons. simpl. by rewrite IH.
Qed.


Lemma fieldNames_NoDup idx n : NoDup (fieldName <$> seq idx n).
Proof.
  apply NoDup_fmap_2_strong; [|apply NoDup_seq].
  intros i j _ _. apply fieldName_inj.
Qed.

Lemma obj_get_elem_of (o : JS.Obj) (k v : string) :
  NoDup (JS.keys o) → (k, v) ∈ o → JS.obj_get k o = Some v.
Proof.
  unfold JS.obj_get, JS.keys.
  induction o as [|[k' v'] o IH]; intros Hnd Hin.
  - by apply elem_of_nil in Hin.
  - rewrite fmap_cons in Hnd. simpl in Hnd.
    apply NoDup_cons in Hnd as [Hfresh Hnd].
    apply elem_of_cons in Hin as [Heq | Hin]; simpl.
    + injection Heq as -> ->. by rewrite String.eqb_refl.
    + destruct (String.eqb_spec k' k) as [->|_]; [|by apply IH].
      exfalso. apply Hfresh. apply list_elem_of_fmap. by exists (k, v).
Qed.


Lemma formGet_skip_files (name : string) idx used (rest : FormData) :
  (∀ i, fieldName i ≠ name) →
  formGet name (fileEntries idx used ++ rest) = formGet name rest.
Proof.
  intros Hne. unfold formGet. revert idx.
  induction used as [|s used IH]; intros idx; [reflexivity|].
  rewrite fileEntries_cons. cbn [app List.find fst].
  destruct (String.eqb_spec (fieldName idx) name) as [Heq|_]; [by apply Hne in Heq|].
  apply IH.
Qed.

Lemma fieldName_not (name : string) (c : ascii) (t : string) :
  name = String c t → c ≠ "f"%char → ∀ i, fieldName i ≠ name.
Proof.
  intros -> Hc i. destruct (fieldName_head i) as [u ->]. congruence.
Qed.


(** The scenario of two slots with aliases and no sheet selector. *)
Example two_aliased_files :
  buildForm (usedSlots (slots Sample.page)) "merge by name" "abc" true
  = [("file1", FileValue Sample.a_xlsx);
     ("file2", FileValue Sample.b_csv);
     ("aliases", TextValue (JS.stringify [("file1", "usuarios_id"); ("file2", "usuarios_cpf")]));
     ("prompt", TextValue "merge by name");
     ("session_id", TextValue "abc");
     ("download", TextValue "1");
     ("out_format", TextValue "xlsx")].
Proof. reflexivity. Qed.

(** A hole in the slot list leaves no hole in the names, and a blank
    alias is named after the position among the populated slots. *)
Example gap_and_blank_alias :
  JS.keys (aliases (buildParts (usedSlots
     [ {| file := None; alias := "first"; sheet := None |};
       {| file := Some Sample.a_xlsx; alias := "  "; sheet := None |};
       {| file := None; alias := ""; sheet := None |};
       {| file := Some Sample.b_csv; alias := " cpf "; sheet := Some "Plan1" |} ])))
  = ["file1"; "file2"]
  ∧ aliases (buildParts (usedSlots
     [ {| file := None; alias := "first"; sheet := None |};
       {| file := Some Sample.a_xlsx; alias := "  "; sheet := None |};
       {| file := None; alias := ""; sheet := None |};
       {| file := Some Sample.b_csv; alias := " cpf "; sheet := Some "Plan1" |} ]))
  = [("file1", "planilha_1"); ("file2", "cpf")].
Proof. split; reflexivity. Qed.

Lemma forEach_sheets used : ∀ idx p,
  below idx (sheets p) →
  sheets (forEach used idx p) = sheets p ++ sheetEntries idx used.
Proof.
  induction used as [|s used IH]; intros idx p Hb; simpl.
  - by rewrite app_nil_r.
  - destruct (selected s) as [sh|] eqn:Hs.
    + rewrite IH; simpl; rewrite Hs;
        rewrite obj_set_fresh by by apply below_fresh.
      * by rewrite <- app_assoc.
      * by apply below_snoc.
    + rewrite IH; simpl; rewrite Hs; [done | by apply below_mono].
Qed.

Lemma buildParts_sheets used : sheets (buildParts used) = sheetEntries 0 used.
Proof.
  unfold buildParts. rewrite forEach_sheets; [done|].
  intros k Hk. simpl in Hk. by apply elem_of_nil in Hk.
Qed.

Lemma sheetEntries_elem_of used : ∀ idx k v,
  (k, v) ∈ sheetEntries idx used ↔
  ∃ i s, used !! i = Some s ∧ selected s = Some v ∧ k = fieldName (idx + i).
Proof.
  induction used as [|s used IH]; intros idx k v; simpl.
  - split; [intros H; by apply elem_of_nil in H | by intros (i & s & ? & _)].
  - destruct (selected s) as [sh|] eqn:Hsel.
    + rewrite elem_of_cons, IH. split.
      * intros [Heq | (i & s' & Hi & Hs' & ->)].
        -- injection Heq as -> ->. exists 0%nat, s. by rewrite Nat.add_0_r.
        -- exists (S i), s'. by rewrite Nat.add_succ_r.
      * intros ([|i] & s' & Hi & Hs' & ->); simpl in Hi.
        -- left. injection Hi as <-. rewrite Nat.add_0_r. congruence.
        -- right. exists i, s'. by rewrite Nat.add_succ_r.
    + rewrite IH. split.
      * intros (i & s' & Hi & Hs' & ->). exists (S i), s'. by rewrite Nat.add_succ_r.
      * intros ([|i] & s' & Hi & Hs' & ->); simpl in Hi.
        -- injection Hi as <-. congruence.
        -- exists i, s'. by rewrite Nat.add_succ_r.
Qed.

Lemma sheetEntries_keys used idx k :
  k ∈ JS.keys (sheetEntries idx used) ↔
  ∃ i s sh, used !! i = Some s ∧ selected s = Some sh ∧ k = fieldName (idx + i).
Proof.
  unfold JS.keys. rewrite list_elem_of_fmap. split.
  - intros ([k' v] & -> & Hin). apply sheetEntries_elem_of in Hin as (i & s & ? & ? & ?).
    by exists i, s, v.
  - intros (i & s & sh & Hi & Hs & ->). exists (fieldName (idx + i), sh).
    split; [done|]. apply sheetEntries_elem_of. by exists i, s.
Qed.

Lemma sheetEntries_NoDup used : ∀ idx, NoDup (JS.keys (sheetEntries idx used)).
Proof.
  induction used as [|s used IH]; intros idx; simpl; [constructor|].
  destruct (selected s) as [sh|]; [|apply IH].
  unfold JS.keys. rewrite fmap_cons. simpl. apply NoDup_cons. split; [|apply IH].
  intros Hin. apply sheetEntries_keys in Hin as (i & _ & _ & _ & _ & Heq).
  apply fieldName_inj in Heq. lia.
Qed.

Lemma selected_Some s sh :
  selected s = Some sh ↔ sheet s = Some sh ∧ sh ≠ "".
Proof.
  unfold selected. destruct (sheet s) as [[|c x]|]; simpl.
  - split; [discriminate | by intros [[= <-] ?]].
  - split; [by intros [= <-] | by intros [[= <-] _]].
  - split; [discriminate | by intros [? _]].
Qed.

Lemma nonempty_elem_of {A} (l : list A) : l ≠ [] → ∃ x, x ∈ l.
Proof. destruct l as [|x l]; [done|]. intros _. exists x. by left. Qed.

Lemma formHas_true name (form : FormData) :
  formHas name form = true ↔ is_Some (formGet name form).
Proof. unfold formHas. by rewrite bool_decide_eq_true. Qed.

(** C4. The sheets map has a key for a positional name exactly when the
    slot at that position selects a sheet, and then holds that selector;
    a slot without one is not among the keys; and the form has a [sheets]
    field exactly when some populated slot selects a sheet: when none
    does the field is absent, not sent empty or null. *)
Theorem sheets_only_when_selected (slots : list UploadSlot) :
  (∀ k, k ∈ JS.keys (sheets (buildParts (usedSlots slots))) ↔
        ∃ i s sh, usedSlots slots !! i = Some s ∧ sheet s = Some sh ∧ sh ≠ ""
                  ∧ k = fieldName i)
  ∧ (∀ i s sh, usedSlots slots !! i = Some s → sheet s = Some sh → sh ≠ "" →
       JS.obj_get (fieldName i) (sheets (buildParts (usedSlots slots))) = Some sh)
  ∧ (∀ i s, usedSlots slots !! i = Some s → sheet s = None →
       fieldName i ∉ JS.keys (sheets (buildParts (usedSlots slots))))
  ∧ (∀ currentPrompt sessionId autoDownload,
       (formHas "sheets" (buildForm (usedSlots slots) currentPrompt sessionId autoDownload) = true
        ↔ ∃ s sh, s ∈ usedSlots slots ∧ sheet s = Some sh ∧ sh ≠ "")
       ∧ ((∀ s, s ∈ usedSlots slots → sheet s = None) →
          formGet "sheets" (buildForm (usedSlots slots) currentPrompt sessionId autoDownload)
          = None)
       ∧ (∀ v, formGet "sheets" (buildForm (usedSlots slots) currentPrompt sessionId autoDownload)
               = Some v →
               v = TextValue (JS.stringify (sheets (buildParts (usedSlots slots))))
               ∧ sheets (buildParts (usedSlots slots)) ≠ [])).
Proof.
  rewrite buildParts_sheets.
  assert (Hkeys : ∀ k, k ∈ JS.keys (sheetEntries 0 (usedSlots slots)) ↔
        ∃ i s sh, usedSlots slots !! i = Some s ∧ sheet s = Some sh ∧ sh ≠ ""
                  ∧ k = fieldName i).
  { intros k. rewrite sheetEntries_keys. split.
    - intros (i & s & sh & Hi & Hs & ->). apply selected_Some in Hs as [? ?].
      by exists i, s, sh.
    - intros (i & s & sh & Hi & Hs & Hne & ->). exists i, s, sh.
      split; [done|]. split; [by apply selected_Some | done]. }
  assert (Hget : ∀ currentPrompt sid ad,
    formGet "sheets" (buildForm (usedSlots slots) currentPrompt sid ad)
    = if bool_decide (JS.keys (sheetEntries 0 (usedSlots slots)) = []) then None
      else Some (TextValue (JS.stringify (sheetEntries 0 (usedSlots slots))))).
  { intros. unfold buildForm. rewrite buildParts_form, buildParts_sheets.
    rewrite formGet_skip_files by by apply (fieldName_not _ "s" "heets").
    by case_bool_decide. }
  split; [exact Hkeys|]. split; [|split].
  - intros i s sh Hi Hs Hne. apply obj_get_elem_of; [apply sheetEntries_NoDup|].
    apply sheetEntries_elem_of. exists i, s. split; [done|].
    split; [by apply selected_Some | done].
  - intros i s Hi Hs Hin. apply Hkeys in Hin as (j & s' & sh & Hj & Hs' & _ & Heq).
    apply fieldName_inj in Heq as <-. congruence.
  - intros currentPrompt sid ad. rewrite formHas_true, Hget. split; [|split].
    + case_bool_decide as Hk; split.
      * by intros [? ?].
      * intros (s & sh & Hin & Hs & Hne). exfalso.
        apply list_elem_of_lookup in Hin as [i Hi].
        assert (fieldName i ∈ JS.keys (sheetEntries 0 (usedSlots slots))) as Hin
          by (apply Hkeys; by exists i, s, sh).
        rewrite Hk in Hin. by apply elem_of_nil in Hin.
      * intros _. destruct (nonempty_elem_of _ Hk) as [k Hin].
        apply Hkeys in Hin as (i & s & sh & Hi & Hs & Hne & _).
        exists s, sh. split; [by eapply list_elem_of_lookup_2 | done].
      * done.
    + intros Hnone. case_bool_decide as Hk; [done|]. exfalso.
      destruct (nonempty_elem_of _ Hk) as [k Hin].
      apply Hkeys in Hin as (i & s & sh & Hi & Hs & _).
      apply list_elem_of_lookup_2 in Hi. rewrite (Hnone _ Hi) in Hs. done.
    + intros v. case_bool_decide as Hk; [done|]. intros [= <-]. split; [done|].
      intros Hnil. apply Hk. by rewrite Hnil.
Qed.

Example sheets_field_present :
  formGet "sheets"
    (buildForm (usedSlots
       [ {| file := Some Sample.a_xlsx; alias := "a"; sheet := Some "" |};
         {| file := Some Sample.b_csv; alias := "b"; sheet := Some "Plan1" |} ])
       "p" "abc" false)
  = Some (TextValue (JS.stringify [("file2", "Plan1")])).
Proof. reflexivity. Qed.

(** ** The reply *)

Section Reply.

Variable JSON_parse : string → Result (option RunSummary).
Variable nullReadMessage : string.

Ltac handler :=
  cbv [resumeSubmit tryFinally tryCatch bind settle onResponse errorDetail
       onCatch downloadBlob run ret throw].

(** What [catch] tells the user. *)
Lemma resume_rejected sid w e st :
  ∃ text, resumeSubmit JSON_parse nullReadMessage sid w (Throws e) st = Normal tt (setLoading false (push text st))
          ∧ (∀ m, e = ErrorObject m → text = m)
          ∧ (e = OtherValue → text = "Erro desconhecido ao processar.").
Proof.
  handler. destruct e as [m|]; eexists; (split; [reflexivity|]);
    split; congruence.
Qed.

Lemma resume_failure sid w res st :
  ok res = false →
  resumeSubmit JSON_parse nullReadMessage sid w (Returns res) st
  = Normal tt (setLoading false (push
      (match json_error res with
       | Returns j => JS.opt_or_else (j ≫= detail) "Erro ao processar."
       | Throws _ => "Erro ao processar."
       end) st)).
Proof.
  intros Hok. handler. rewrite Hok. simpl.
  destruct (json_error res) as [j|e]; reflexivity.
Qed.

Lemma resume_file sid w res v b st :
  ok res = true → isFile (ctype res) = true →
  readSummary JSON_parse res = Returns v → blob res = Returns b →
  resumeSubmit JSON_parse nullReadMessage sid w (Returns res) st
  = Normal tt (setLoading false
      (setMessages (λ prev, prev ++ [Assistant (default placeholder v) inlineArtifacts w])
         (click (downloadName res) b st))).
Proof.
  intros Hok Hfile Hsum Hblob. handler.
  rewrite Hok, Hfile, Hsum, Hblob. reflexivity.
Qed.

Lemma resume_file_unread sid w res st :
  ok res = true → isFile (ctype res) = true →
  (∃ e, readSummary JSON_parse res = Throws e) ∨ (∃ e, blob res = Throws e) →
  ∃ text, resumeSubmit JSON_parse nullReadMessage sid w (Returns res) st = Normal tt (setLoading false (push text st)).
Proof.
  intros Hok Hfile Hthrown. handler. rewrite Hok, Hfile. simpl.
  destruct (readSummary JSON_parse res) as [v|[m|]] eqn:Hsum;
    [|eexists; reflexivity..].
  destruct Hthrown as [[e He]|[e He]]; [discriminate|].
  rewrite He. destruct e; eexists; reflexivity.
Qed.

(** [data?.session_id && data.session_id !== sessionId] *)
Lemma resume_json sid w res d st :
  ok res = true → isFile (ctype res) = false →
  json_run res = Returns (Some d) →
  resumeSubmit JSON_parse nullReadMessage sid w (Returns res) st
  = Normal tt (setLoading false
      (setMessages (λ prev, prev ++ [Assistant (summary d) (artifacts d) w])
         (if JS.truthy (session_id d) && negb (String.eqb (session_id d) sid)
          then setSessionId (session_id d) st else st))).
Proof.
  intros Hok Hfile Hdata. handler. rewrite Hok, Hfile, Hdata. simpl.
  destruct (JS.truthy (session_id d) && negb (String.eqb (session_id d) sid));
    reflexivity.
Qed.

Lemma resume_json_unread sid w res st :
  ok res = true → isFile (ctype res) = false →
  json_run res = Returns None ∨ (∃ e, json_run res = Throws e) →
  ∃ text, resumeSubmit JSON_parse nullReadMessage sid w (Returns res) st = Normal tt (setLoading false (push text st)).
Proof.
  intros Hok Hfile Hdata. handler. rewrite Hok, Hfile. simpl.
  destruct Hdata as [-> | [e ->]]; [|destruct e]; eexists; reflexivity.
Qed.


(** *** The name of the saved file *)

Lemma matchAt_nonempty s g : matchAt s = Some g → g ≠ "".
Proof.
  unfold matchAt. destruct (literalCI "filename=" s) as [r|]; [|done].
  destruct (notQuote _) as [|c t]; simpl; [done|]. by intros [= <-].
Qed.

Lemma matchFilename_nonempty s g : matchFilename s = Some g → g ≠ "".
Proof.
  induction s as [|c s IH]; cbn [matchFilename].
  - discriminate.
  - destruct (matchAt (String c s)) eqn:Hm; [|exact IH].
    intros [= <-]. by eapply matchAt_nonempty.
Qed.

(** [m?.[1] || (...)]: a match always names the file. *)
Lemma downloadName_cases res :
  downloadName res
  = match matchFilename (JS.opt_or_else (headersGet "content-disposition" res) "") with
    | Some filename => filename
    | None =>
        if match headersGet "content-type" res with
           | Some ct => JS.includes ct "csv"
           | None => false
           end
        then "planilhanova.csv" else "planilhanova.xlsx"
    end.
Proof.
  unfold downloadName.
  destruct (matchFilename _) as [g|] eqn:Hm; [|reflexivity].
  apply matchFilename_nonempty in Hm. simpl. unfold JS.or_else.
  by destruct g.
Qed.

(** C1, as the page has it. A 2xx reply with a spreadsheet or CSV content
    type, whose summary header parses and whose body can be read, is
    always saved to disk, whether or not the auto-download box is
    ticked: the preference only travels to the service as the [download]
    field of the form. The file is named by the Content-Disposition
    filename when the header has one, else planilhanova.csv when the
    content type contains csv and planilhanova.xlsx otherwise. *)
Theorem file_reply_downloaded sid w res v b st :
  ok res = true → isFile (ctype res) = true →
  readSummary JSON_parse res = Returns v → blob res = Returns b →
  downloads (stateOf (resumeSubmit JSON_parse nullReadMessage sid w (Returns res) st))
    = downloads st ++ [(downloadName res, b)]
  ∧ autoDownload (stateOf (resumeSubmit JSON_parse nullReadMessage sid w (Returns res) st)) = autoDownload st
  ∧ downloadName res
    = match matchFilename (JS.opt_or_else (headersGet "content-disposition" res) "") with
      | Some filename => filename
      | None =>
          if match headersGet "content-type" res with
             | Some ct => JS.includes ct "csv"
             | None => false
             end
          then "planilhanova.csv" else "planilhanova.xlsx"
      end
  ∧ ∀ used currentPrompt,
      formGet "download" (buildForm used currentPrompt sid (autoDownload st))
      = Some (TextValue (if autoDownload st then "1" else "0")).
Proof.
  intros Hok Hfile Hsum Hblob.
  rewrite (resume_file sid w res v b) by done. simpl.
  split; [reflexivity|]. split; [reflexivity|]. split; [apply downloadName_cases|].
  intros used currentPrompt. unfold buildForm. rewrite buildParts_form.
  rewrite formGet_skip_files by by apply (fieldName_not _ "d" "ownload").
  unfold formGet. simpl. by case_bool_decide.
Qed.

(** C6. A 2xx file reply without the summary header appends, when its
    body can be read, exactly one assistant entry: the placeholder
    summary, whose action is the generic PROCESS, with zero rows, zero
    unmatched rows and no added column, and artifacts whose links are all
    empty. Nothing else is ever added to the transcript on this path. *)
Theorem missing_summary_placeholder sid w res st :
  ok res = true → isFile (ctype res) = true →
  headersGet "X-Run-Summary" res = None →
  (∀ b, blob res = Returns b →
     messages (stateOf (resumeSubmit JSON_parse nullReadMessage sid w (Returns res) st))
     = messages st ++ [Assistant placeholder inlineArtifacts w])
  ∧ (∀ m, m ∈ messages (stateOf (resumeSubmit JSON_parse nullReadMessage sid w (Returns res) st)) →
       m ∈ messages st ∨ m = Assistant placeholder inlineArtifacts w)
  ∧ detected_action placeholder = "PROCESS"
  ∧ rows_total placeholder = 0
  ∧ rows_unmatched placeholder = 0
  ∧ added_columns placeholder = Some []
  ∧ result_url inlineArtifacts = ""
  ∧ unmatched_url inlineArtifacts = Some ""
  ∧ log_url inlineArtifacts = Some "".
Proof.
  intros Hok Hfile Hhdr.
  assert (Hsum : readSummary JSON_parse res = Returns None)
    by (unfold readSummary; by rewrite Hhdr).
  split; [|split; [|by repeat split]].
  - intros b Hblob. by rewrite (resume_file sid w res None b).
  - intros m. destruct (blob res) as [b|e] eqn:Hblob.
    + rewrite (resume_file sid w res None b) by done. simpl.
      rewrite elem_of_app, list_elem_of_singleton. tauto.
    + destruct (resume_file_unread sid w res st) as [text ->]; eauto.
Qed.

(** C7, as the page has it. A non-2xx reply raises one notification: the
    detail of the error body when the body decodes to an object with a
    non-empty one, else the generic failure message (also for a body
    that is not JSON, is null, has no detail or an empty one). The
    handler returns normally, appends no transcript entry and lowers the
    loading flag. *)
Theorem failure_reply_notified sid w res st :
  ok res = false →
  ∃ text st',
    resumeSubmit JSON_parse nullReadMessage sid w (Returns res) st = Normal tt st'
    ∧ toasts st' = toasts st ++ [text]
    ∧ messages st' = messages st
    ∧ loading st' = false
    ∧ (∀ d, json_error res = Returns (Some {| detail := Some d |}) → d ≠ "" →
         text = d)
    ∧ ((∃ e, json_error res = Throws e)
       ∨ json_error res = Returns None
       ∨ json_error res = Returns (Some {| detail := None |})
       ∨ json_error res = Returns (Some {| detail := Some "" |}) →
       text = "Erro ao processar.").
Proof.
  intros Hok. rewrite resume_failure by done.
  eexists. eexists. split; [reflexivity|]. simpl.
  split; [reflexivity|]. split; [reflexivity|]. split; [reflexivity|]. split.
  - intros d -> Hd. simpl. unfold JS.or_else. by destruct d.
  - intros [[e ->] | [-> | [-> | ->]]]; reflexivity.
Qed.

(** C9, as the page has it. A 2xx JSON reply whose [session_id] is not
    empty and differs from the identifier the handler was called with
    makes that value the current identifier; the transcript keeps every
    earlier entry, in order, and only gains the assistant entry of the
    reply. *)
Theorem server_session_adopted sid w res d st :
  ok res = true → isFile (ctype res) = false →
  json_run res = Returns (Some d) →
  session_id d ≠ "" → session_id d ≠ sid →
  ∃ st',
    resumeSubmit JSON_parse nullReadMessage sid w (Returns res) st = Normal tt st'
    ∧ sessionId st' = session_id d
    ∧ messages st' = messages st ++ [Assistant (summary d) (artifacts d) w]
    ∧ take (length (messages st)) (messages st') = messages st.
Proof.
  intros Hok Hfile Hdata Hne Hdiff.
  rewrite (resume_json sid w res d) by done.
  assert (JS.truthy (session_id d) = true) as -> by by destruct (session_id d).
  apply String.eqb_neq in Hdiff. rewrite Hdiff. simpl.
  eexists. split; [reflexivity|]. simpl.
  split; [reflexivity|]. split; [reflexivity|]. by rewrite take_app_length.
Qed.


End Reply.

(** ** The replies at work *)

Lemma notQuote_app (n rest : string) :
  notQuote n = n → notQuote (n +:+ JS.quote +:+ rest) = n.
Proof.
  induction n as [|c n IH]; intros Hn; [reflexivity|].
  change (String c n +:+ JS.quote +:+ rest) with (String c (n +:+ JS.quote +:+ rest)).
  simpl in *. destruct (Ascii.eqb c JS.dquote); [discriminate|].
  injection Hn as Hn. by rewrite IH.
Qed.

Lemma matchFilename_here (s g : string) :
  matchAt s = Some g → matchFilename s = Some g.
Proof. intros H. destruct s; cbn [matchFilename]; by rewrite H. Qed.

(** The usual header: the quoted name is the name of the saved file. *)
Lemma attachment_filename (n : string) :
  n ≠ "" → notQuote n = n →
  matchFilename ("attachment; filename=" +:+ JS.quote +:+ n +:+ JS.quote) = Some n.
Proof.
  intros Hne Hn.
  change (matchFilename ("attachment; filename=" +:+ JS.quote +:+ n +:+ JS.quote))
    with (matchFilename ("filename=" +:+ JS.quote +:+ n +:+ JS.quote)).
  apply matchFilename_here.
  change (matchAt ("filename=" +:+ JS.quote +:+ n +:+ JS.quote))
    with (if JS.truthy (notQuote (n +:+ JS.quote +:+ ""))
          then Some (notQuote (n +:+ JS.quote +:+ "")) else None).
  rewrite notQuote_app by done. by destruct n.
Qed.

Example attachment_named :
  downloadName
    {| ok := true;
       headers := [("content-type", XLSX_MIME);
                   ("content-disposition",
                    "attachment; filename=" +:+ JS.quote +:+ "resultado.xlsx" +:+ JS.quote)];
       json_error := Throws OtherValue;
       json_run := Throws OtherValue;
       blob := Returns "PK" |}
  = "resultado.xlsx".
Proof. reflexivity. Qed.

Example unnamed_spreadsheet :
  downloadName
    {| ok := true;
       headers := [("content-type", XLSX_MIME)];
       json_error := Throws OtherValue;
       json_run := Throws OtherValue;
       blob := Returns "PK" |}
  = "planilhanova.xlsx".
Proof. reflexivity. Qed.

Lemma file_reply_downloaded_witness :
  downloads (stateOf (resumeSubmit Sample.parse "" "abc" "t2"
                        (Returns Sample.csvReply) Sample.quiet))
  = [("planilhanova.csv", "id,nome")].
Proof.
  pose proof (file_reply_downloaded Sample.parse "" "abc" "t2" Sample.csvReply
                None "id,nome" Sample.quiet eq_refl eq_refl eq_refl eq_refl) as [H _].
  exact H.
Defined.

(** C1, as the specification words it, fails with the box unticked: the file
    reply is saved all the same. *)
Lemma download_with_box_unticked :
  autoDownload Sample.quiet = false
  ∧ downloads Sample.quiet = []
  ∧ downloads (stateOf (submit Sample.parse "" (λ _, Returns Sample.csvReply)
                          "t1" "t2" Sample.quiet))
    = [("planilhanova.csv", "id,nome")].
Proof. repeat split. Qed.

Lemma missing_summary_placeholder_witness :
  messages (stateOf (resumeSubmit Sample.parse "" "abc" "t2"
                       (Returns Sample.csvReply) Sample.page))
  = [Assistant placeholder inlineArtifacts "t2"].
Proof.
  pose proof (missing_summary_placeholder Sample.parse "" "abc" "t2" Sample.csvReply
                Sample.page eq_refl eq_refl eq_refl) as [H _].
  exact (H "id,nome" eq_refl).
Defined.

Lemma failure_reply_notified_witness :
  ∃ text st',
    resumeSubmit Sample.parse "" "abc" "t2"
      (Returns (Sample.failure (Some "arquivo inválido"))) Sample.page = Normal tt st'
    ∧ toasts st' = toasts Sample.page ++ [text]
    ∧ messages st' = messages Sample.page
    ∧ loading st' = false
    ∧ text = "arquivo inválido".
Proof.
  destruct (failure_reply_notified Sample.parse "" "abc" "t2"
              (Sample.failure (Some "arquivo inválido")) Sample.page eq_refl)
    as (text & st' & Hrun & Ht & Hm & Hl & Hd & _).
  exists text, st'. repeat split; try assumption.
  apply Hd; [reflexivity | discriminate].
Defined.

(** Without a file in any slot nothing is sent and nothing is recorded. *)
Example no_file_no_request :
  handleSubmit Sample.parse "" "t1" "t2" (setSlots (λ _, [blankSlot]) Sample.page)
  = Settled (Normal tt (push "Envie pelo menos 1 arquivo (CSV/XLSX)."
                          (setSlots (λ _, [blankSlot]) Sample.page))).
Proof. reflexivity. Qed.

(** The scenario of a 422 reply with a detail. *)
Example unprocessable_entity :
  submit Sample.parse "" (λ _, Returns (Sample.failure (Some "arquivo inválido")))
    "t1" "t2" Sample.page
  = Normal tt
      {| sessionId := "abc";
         messages := [User "merge by name" "t1"];
         slots := slots Sample.page;
         totalSlots := Some 2;
         autoDownload := true;
         prompt := "";
         loading := false;
         toasts := ["arquivo inválido"];
         downloads := [] |}.
Proof. reflexivity. Qed.

(** C7, as the specification words it, fails for an error body whose detail is the
    empty string: the notification carries the generic message. *)
Lemma empty_detail_replaced :
  json_error (Sample.failure (Some "")) = Returns (Some {| detail := Some "" |})
  ∧ toasts (stateOf (resumeSubmit Sample.parse "" "abc" "t2"
                       (Returns (Sample.failure (Some ""))) Sample.page))
    = ["Erro ao processar."].
Proof. split; reflexivity. Qed.

Lemma server_session_adopted_witness :
  ∃ st',
    resumeSubmit Sample.parse "" "abc" "t2" (Returns (Sample.jsonReply "xyz")) Sample.page
    = Normal tt st'
    ∧ sessionId st' = "xyz".
Proof.
  destruct (server_session_adopted Sample.parse "" "abc" "t2" (Sample.jsonReply "xyz")
              _ Sample.page eq_refl eq_refl eq_refl)
    as (st' & Hrun & Hsid & _); [discriminate | discriminate |].
  exists st'. split; [exact Hrun | exact Hsid].
Defined.

(** C9, as the specification words it, fails for a reply whose [session_id] is the
    empty string: it differs from the current identifier and is not
    adopted. *)
Lemma empty_session_not_adopted :
  session_id <$> (match json_run (Sample.jsonReply "") with
                  | Returns d => d
                  | Throws _ => None
                  end) = Some ""
  ∧ sessionId Sample.page = "abc"
  ∧ sessionId (stateOf (submit Sample.parse "" (λ _, Returns (Sample.jsonReply ""))
                          "t1" "t2" Sample.page))
    = "abc".
Proof. repeat split. Qed.


(** The scenario of a sorted CSV sent back directly. *)
Example sorted_csv_reply :
  messages (stateOf (submit
     (λ _, Returns (Some Sample.sorted)) ""
     (λ _, Returns {| ok := true;
                      headers := [("content-type", "text/csv");
                                  ("x-run-summary", "{...}")];
                      json_error := Throws OtherValue;
                      json_run := Throws OtherValue;
                      blob := Returns "id,nome" |})
     "t1" "t2" Sample.page))
  = [User "merge by name" "t1"; Assistant Sample.sorted inlineArtifacts "t2"].
Proof. reflexivity. Qed.

(** * Further properties of the page *)

(** ** Strings *)

Lemma string_app_cons (c : ascii) (a b : string) :
  String c a +:+ b = String c (a +:+ b).
Proof. reflexivity. Qed.

Lemma prefix_spec (p s : string) :
  String.prefix p s = true ↔ ∃ r, s = p +:+ r.
Proof.
  revert s. induction p as [|a p IH]; intros s.
  - split; [intros _; by exists s | by destruct s].
  - destruct s as [|b s]; cbn [String.prefix].
    + split; [discriminate | by intros [r ?]].
    + destruct (ascii_dec a b) as [->|Hne].
      * rewrite IH. split; intros [r Hr]; exists r.
        -- by rewrite string_app_cons, <- Hr.
        -- rewrite string_app_cons in Hr. by injection Hr.
      * split; [discriminate|]. intros [r Hr].
        rewrite string_app_cons in Hr. injection Hr as Hab _. by symmetry in Hab.
Qed.

Lemma rev_app_spec (s acc : string) :
  String.rev_app s acc = String.rev s +:+ acc.
Proof.
  unfold String.rev. revert acc.
  induction s as [|a s IH]; intros acc; [reflexivity|].
  cbn [String.rev_app]. rewrite (IH (String a acc)), (IH (String a "")).
  by rewrite string_app_assoc.
Qed.

Lemma rev_cons (a : ascii) (s : string) :
  String.rev (String a s) = String.rev s +:+ String a "".
Proof. unfold String.rev at 1. cbn [String.rev_app]. apply rev_app_spec. Qed.

Lemma rev_app_distr (a b : string) :
  String.rev (a +:+ b) = String.rev b +:+ String.rev a.
Proof.
  induction a as [|c a IH].
  - by rewrite string_app_nil_r.
  - rewrite string_app_cons, !rev_cons, IH. by rewrite string_app_assoc.
Qed.

Lemma rev_involutive (s : string) : String.rev (String.rev s) = s.
Proof.
  induction s as [|c s IH]; [reflexivity|].
  by rewrite rev_cons, rev_app_distr, IH.
Qed.

Lemma endsWith_spec (s p : string) :
  JS.endsWith s p = true ↔ ∃ stem, s = stem +:+ p.
Proof.
  unfold JS.endsWith. rewrite prefix_spec. split.
  - intros [r Hr]. exists (String.rev r).
    rewrite <- (rev_involutive s), Hr, rev_app_distr. by rewrite rev_involutive.
  - intros [stem ->]. exists (String.rev stem). apply rev_app_distr.
Qed.

Lemma toLowerCase_app (a b : string) :
  JS.toLowerCase (a +:+ b) = JS.toLowerCase a +:+ JS.toLowerCase b.
Proof.
  induction a as [|c a IH]; [reflexivity|].
  rewrite string_app_cons. cbn [JS.toLowerCase]. by rewrite IH.
Qed.

Lemma toLowerCase_split (s a b : string) :
  JS.toLowerCase s = a +:+ b →
  ∃ a' b', s = a' +:+ b' ∧ JS.toLowerCase a' = a ∧ JS.toLowerCase b' = b.
Proof.
  revert s. induction a as [|c a IH]; intros s Hs.
  - by exists "", s.
  - destruct s as [|d s]; [discriminate|].
    cbn [JS.toLowerCase] in Hs. rewrite string_app_cons in Hs.
    injection Hs as Hc Hs. destruct (IH _ Hs) as (a' & b' & -> & Ha & Hb).
    exists (String d a'), b'. cbn [JS.toLowerCase]. by rewrite Hc, Ha.
Qed.

Lemma lower_dot (c : ascii) : JS.lower c = "."%char → c = "."%char.
Proof.
  destruct c as [[] [] [] [] [] [] [] []]; vm_compute; congruence.
Qed.

Lemma split_go_nonempty sep cur s : JS.split_go sep cur s ≠ [].
Proof.
  revert cur. induction s as [|c s IH]; intros cur; cbn [JS.split_go]; [done|].
  destruct (Ascii.eqb c sep); [done | apply IH].
Qed.

Lemma last_cons_nonempty {A} (x : A) (l : list A) : l ≠ [] → last (x :: l) = last l.
Proof. by destruct l. Qed.

Lemma split_go_last_app sep cur stem ext :
  last (JS.split_go sep cur (stem +:+ String sep ext)) = last (JS.split_go sep "" ext).
Proof.
  revert cur. induction stem as [|c stem IH]; intros cur.
  - change ("" +:+ String sep ext) with (String sep ext).
    cbn [JS.split_go]. rewrite Ascii.eqb_refl.
    apply last_cons_nonempty, split_go_nonempty.
  - rewrite string_app_cons. cbn [JS.split_go].
    destruct (Ascii.eqb c sep).
    + rewrite last_cons_nonempty by apply split_go_nonempty. apply IH.
    + apply IH.
Qed.

Lemma includes_cons (c : ascii) (t p : string) :
  JS.includes (String c t) p = String.prefix p (String c t) || JS.includes t p.
Proof. reflexivity. Qed.

Lemma split_go_dotless (cur s : string) :
  JS.includes s "." = false →
  JS.split_go "." cur s = [String.rev cur +:+ s].
Proof.
  revert cur. induction s as [|c s IH]; intros cur Hs.
  - cbn [JS.split_go]. by rewrite string_app_nil_r.
  - rewrite includes_cons in Hs. apply orb_false_elim in Hs as [Hc Hs].
    cbn [JS.split_go].
    destruct (Ascii.eqb_spec c ".") as [->|Hne].
    + assert (String.prefix "." (String "." s) = true) as Hp
        by (apply prefix_spec; by exists s).
      congruence.
    + rewrite IH by done. by rewrite rev_cons, string_app_assoc.
Qed.

Lemma lowered_dotless (ext low : string) :
  JS.toLowerCase ext = low → JS.includes low "." = false →
  JS.includes ext "." = false.
Proof.
  revert low. induction ext as [|c ext IH]; intros low Hlow Hdot; [reflexivity|].
  cbn [JS.toLowerCase] in Hlow. subst low.
  rewrite includes_cons in *. apply orb_false_elim in Hdot as [Hc Hdot].
  rewrite (IH _ eq_refl Hdot), orb_false_r.
  destruct (String.prefix "." (String c ext)) eqn:Hp; [|reflexivity].
  apply prefix_spec in Hp as [r Hr]. change ("." +:+ r) with (String "." r) in Hr.
  injection Hr as -> _.
  assert (String.prefix "." (String (JS.lower ".") (JS.toLowerCase ext)) = true) as Hq
    by (apply prefix_spec; by exists (JS.toLowerCase ext)).
  congruence.
Qed.

Lemma pop_split_extension (stem ext low : string) :
  JS.toLowerCase ext = low → JS.includes low "." = false →
  JS.pop (JS.split "." (stem +:+ "." +:+ ext)) = Some ext.
Proof.
  intros Hlow Hdot. unfold JS.pop, JS.split.
  change (stem +:+ "." +:+ ext) with (stem +:+ String "." ext).
  rewrite split_go_last_app, split_go_dotless; [reflexivity|].
  by eapply lowered_dotless.
Qed.

Lemma endsWith_lowered_extension (s low : string) :
  JS.endsWith (JS.toLowerCase s) ("." +:+ low) = true ↔
  ∃ stem ext, s = stem +:+ "." +:+ ext ∧ JS.toLowerCase ext = low.
Proof.
  rewrite endsWith_spec. split.
  - intros [pre Hpre].
    destruct (toLowerCase_split _ _ _ Hpre) as (stem & b & -> & _ & Hb).
    destruct b as [|d ext]; [discriminate|].
    cbn [JS.toLowerCase] in Hb. change ("." +:+ low) with (String "." low) in Hb.
    injection Hb as Hd Hext. apply lower_dot in Hd as ->.
    by exists stem, ext.
  - intros (stem & ext & -> & <-). exists (JS.toLowerCase stem).
    by rewrite !toLowerCase_app.
Qed.

(** X4. A file is accepted exactly when its name has a dot and what
    follows the last dot, the extension that a refusal would name in its
    notice, reads csv or xlsx once lower-cased: the test does not depend
    on the case of the extension, and a name without a dot is refused. *)
Theorem allowed_iff_extension (f : File) :
  isAllowed (Some f) = true ↔
  ∃ stem ext,
    name f = stem +:+ "." +:+ ext
    ∧ JS.pop (JS.split "." (name f)) = Some ext
    ∧ (JS.toLowerCase ext = "csv" ∨ JS.toLowerCase ext = "xlsx").
Proof.
  rewrite isAllowed_Some, orb_true_iff.
  change ".csv" with ("." +:+ "csv"). change ".xlsx" with ("." +:+ "xlsx").
  rewrite !endsWith_lowered_extension. split.
  - intros [(stem & ext & Hn & Hext) | (stem & ext & Hn & Hext)];
      exists stem, ext; (split; [done|]); (split; [|by auto]);
      rewrite Hn; by eapply pop_split_extension.
  - intros (stem & ext & Hn & _ & [Hext | Hext]); [left | right]; by exists stem, ext.
Qed.

(** ** Editing the slots *)

Lemma updateSlot_lookup (i j : nat) (patch : SlotPatch) (st : State) :
  slots (updateSlot i patch st) !! j
  = (λ s, if decide (j = i) then applyPatch s patch else s) <$> slots st !! j.
Proof. unfold updateSlot. simpl. apply list_lookup_imap. Qed.

(** X1. [updateSlot] changes the slot at its index and nothing else: the
    list keeps its length, every other slot is as it was, the one at the
    index takes the properties the patch carries and keeps the others,
    and an index past the end changes no slot at all. *)
Theorem updateSlot_touches_one (i : nat) (patch : SlotPatch) (st : State) :
  length (slots (updateSlot i patch st)) = length (slots st)
  ∧ (∀ j, j ≠ i → slots (updateSlot i patch st) !! j = slots st !! j)
  ∧ slots (updateSlot i patch st) !! i
    = (λ s, {| file := default (file s) (patch_file patch);
               alias := default (alias s) (patch_alias patch);
               sheet := default (sheet s) (patch_sheet patch) |}) <$> slots st !! i
  ∧ ((length (slots st) ≤ i)%nat → slots (updateSlot i patch st) = slots st)
  ∧ messages (updateSlot i patch st) = messages st
  ∧ toasts (updateSlot i patch st) = toasts st.
Proof.
  split; [|split; [|split; [|split; [|split]]]]; try reflexivity.
  - unfold updateSlot. simpl. apply length_imap.
  - intros j Hj. rewrite updateSlot_lookup. destruct (slots st !! j); simpl; [|done].
    by rewrite decide_False.
  - rewrite updateSlot_lookup. destruct (slots st !! i); simpl; [|done].
    by rewrite decide_True.
  - intros Hi. apply list_eq. intros j. rewrite updateSlot_lookup.
    destruct (slots st !! j) as [s|] eqn:Hj; simpl; [|done].
    apply lookup_lt_Some in Hj. rewrite decide_False by lia. done.
Qed.

(** X2. A pick of an accepted file puts that file in the slot at the
    index, keeps the alias and the sheet of that slot and every other
    slot, and raises no notification. *)
Theorem accepted_pick_fills_slot (i : nat) (f : File) (s : UploadSlot) (st : State) :
  isAllowed (Some f) = true → slots st !! i = Some s →
  slots (handlePick i (Some f) st) !! i
    = Some {| file := Some f; alias := alias s; sheet := sheet s |}
  ∧ (∀ j, j ≠ i → slots (handlePick i (Some f) st) !! j = slots st !! j)
  ∧ length (slots (handlePick i (Some f) st)) = length (slots st)
  ∧ toasts (handlePick i (Some f) st) = toasts st.
Proof.
  intros Hok Hi. unfold handlePick. rewrite Hok. cbn [negb].
  split; [|split; [|split]]; try reflexivity.
  - rewrite updateSlot_lookup, Hi. simpl. by rewrite decide_True.
  - intros j Hj. rewrite updateSlot_lookup. destruct (slots st !! j); simpl; [|done].
    by rewrite decide_False.
  - unfold updateSlot. simpl. apply length_imap.
Qed.

Lemma accepted_pick_fills_slot_witness :
  slots (handlePick 1 (Some Sample.a_xlsx) Sample.page) !! 1%nat
  = Some {| file := Some Sample.a_xlsx; alias := "usuarios_cpf"; sheet := None |}.
Proof.
  pose proof (accepted_pick_fills_slot 1 Sample.a_xlsx _ Sample.page eq_refl eq_refl)
    as [H _].
  exact H.
Defined.

Lemma usedSlots_nil (l : list UploadSlot) :
  (∀ j s, l !! j = Some s → file s = None) → usedSlots l = [].
Proof.
  intros Hnone. unfold usedSlots.
  induction l as [|s l IH]; [reflexivity|].
  rewrite filter_cons. rewrite decide_False.
  - apply IH. intros j s' Hj. by apply (Hnone (S j)).
  - rewrite (Hnone 0%nat s eq_refl). by intros [? ?].
Qed.

(** X3. Taking the file out of a slot, when no other slot holds one,
    leaves nothing to send: the next press of the button only raises the
    notice asking for a file; no request goes out, the prompt is not
    cleared, the transcript gains nothing and the loading flag stays as
    it was. *)
Theorem cleared_pick_blocks_submit
    (JSON_parse : string → Result (option RunSummary)) (nullReadMessage : string)
    (whenUser whenReply : string) (i : nat) (st : State) :
  (∀ j s, j ≠ i → slots st !! j = Some s → file s = None) →
  handleSubmit JSON_parse nullReadMessage whenUser whenReply (handlePick i None st)
  = Settled (Normal tt (push "Envie pelo menos 1 arquivo (CSV/XLSX)."
                          (updateSlot i (filePatch None) st))).
Proof.
  intros Hothers. unfold handlePick, handleSubmit.
  rewrite usedSlots_nil; [reflexivity|].
  intros j s. rewrite updateSlot_lookup.
  destruct (slots st !! j) as [s0|] eqn:Hj; simpl; [|done].
  intros [= <-]. destruct (decide (j = i)) as [->|Hne]; [reflexivity|].
  by eapply Hothers.
Qed.

Lemma cleared_pick_blocks_submit_witness :
  handleSubmit Sample.parse "" "t1" "t2"
    (handlePick 0 None (setSlots (take 1) Sample.page))
  = Settled (Normal tt (push "Envie pelo menos 1 arquivo (CSV/XLSX)."
                          (updateSlot 0 (filePatch None) (setSlots (take 1) Sample.page)))).
Proof.
  apply (cleared_pick_blocks_submit Sample.parse "" "t1" "t2" 0
           (setSlots (take 1) Sample.page)).
  intros [|[|j]] s Hne Hj; [done | discriminate | discriminate].
Defined.

(** ** The slot count, again *)

Lemma slotCountEffect_length (st : State) :
  Z.of_nat (length (slots (slotCountEffect st))) = clamped (totalSlots st).
Proof.
  pose proof (clamped_range (totalSlots st)) as Hr. unfold slotCountEffect.
  destruct (Z.ltb_spec (Z.of_nat (length (slots st))) (clamped (totalSlots st))).
  - simpl. rewrite length_app, length_replicate. lia.
  - destruct (Z.gtb_spec (Z.of_nat (length (slots st))) (clamped (totalSlots st))).
    + simpl. rewrite length_take. lia.
    + lia.
Qed.

Lemma slotCountEffect_totalSlots (st : State) :
  totalSlots (slotCountEffect st) = totalSlots st.
Proof.
  unfold slotCountEffect.
  destruct (_ <? _); [reflexivity|]. destruct (_ >? _); reflexivity.
Qed.

Lemma slotCountEffect_settled (st : State) :
  Z.of_nat (length (slots st)) = clamped (totalSlots st) → slotCountEffect st = st.
Proof.
  intros Heq. unfold slotCountEffect.
  rewrite (proj2 (Z.ltb_ge _ _)) by lia.
  destruct (Z.gtb_spec (Z.of_nat (length (slots st))) (clamped (totalSlots st))); [lia|].
  reflexivity.
Qed.

(** X5. The slot-count effect settles in one run: run again on its own
    result it changes nothing, and it never touches anything but the slot
    list. The effect is keyed on the length of the list it rewrites, so
    the page does run it a second time. *)
Theorem slot_effect_settles (st : State) :
  slotCountEffect (slotCountEffect st) = slotCountEffect st
  ∧ totalSlots (slotCountEffect st) = totalSlots st
  ∧ messages (slotCountEffect st) = messages st
  ∧ sessionId (slotCountEffect st) = sessionId st
  ∧ prompt (slotCountEffect st) = prompt st
  ∧ toasts (slotCountEffect st) = toasts st.
Proof.
  split.
  - apply slotCountEffect_settled.
    by rewrite slotCountEffect_length, slotCountEffect_totalSlots.
  - unfold slotCountEffect.
    destruct (_ <? _); [by repeat split|]. destruct (_ >? _); by repeat split.
Qed.

Lemma slotCountEffect_slots (st : State) :
  slots (slotCountEffect st)
  = take (Z.to_nat (clamped (totalSlots st))) (slots st)
    ++ replicate (Z.to_nat (clamped (totalSlots st)) - length (slots st)) blankSlot.
Proof.
  pose proof (clamped_range (totalSlots st)) as Hr. unfold slotCountEffect.
  destruct (Z.ltb_spec (Z.of_nat (length (slots st))) (clamped (totalSlots st))).
  - simpl. rewrite take_ge by lia. do 2 f_equal. lia.
  - destruct (Z.gtb_spec (Z.of_nat (length (slots st))) (clamped (totalSlots st))).
    + simpl.
      replace (Z.to_nat (clamped (totalSlots st)) - length (slots st))%nat
        with 0%nat by lia.
      by rewrite app_nil_r.
    + rewrite take_ge by lia.
      replace (Z.to_nat (clamped (totalSlots st)) - length (slots st))%nat
        with 0%nat by lia.
      by rewrite app_nil_r.
Qed.

(** X6. Lowering the count and raising it again does not bring back what
    the dropped slots held: the list is the kept slots followed by blank
    ones, without file, alias or sheet. *)
Theorem dropped_slots_come_back_blank (a b : option Z) (st : State) :
  clamped a ≤ Z.of_nat (length (slots st)) → clamped a ≤ clamped b →
  slots (slotCountEffect (setTotalSlots b (slotCountEffect (setTotalSlots a st))))
  = take (Z.to_nat (clamped a)) (slots st)
    ++ replicate (Z.to_nat (clamped b) - Z.to_nat (clamped a)) blankSlot.
Proof.
  intros Hlen Hab.
  pose proof (clamped_range a) as Ha.
  assert (Hs1 : slots (setTotalSlots b (slotCountEffect (setTotalSlots a st)))
                = take (Z.to_nat (clamped a)) (slots st)).
  { change (slots (setTotalSlots b (slotCountEffect (setTotalSlots a st))))
      with (slots (slotCountEffect (setTotalSlots a st))).
    rewrite slotCountEffect_slots.
    change (totalSlots (setTotalSlots a st)) with a.
    change (slots (setTotalSlots a st)) with (slots st).
    replace (Z.to_nat (clamped a) - length (slots st))%nat with 0%nat by lia.
    by rewrite app_nil_r. }
  rewrite slotCountEffect_slots, Hs1.
  change (totalSlots (setTotalSlots b (slotCountEffect (setTotalSlots a st)))) with b.
  rewrite take_take, length_take.
  f_equal; [f_equal; lia | f_equal; lia].
Qed.

Lemma dropped_slots_come_back_blank_witness :
  slots (slotCountEffect (setTotalSlots (Some 2)
           (slotCountEffect (setTotalSlots (Some 1) Sample.page))))
  = [ {| file := Some Sample.a_xlsx; alias := "usuarios_id"; sheet := None |};
      blankSlot ].
Proof.
  apply (dropped_slots_come_back_blank (Some 1) (Some 2) Sample.page); vm_compute;
    discriminate.
Defined.

Lemma usedSlots_length (l : list UploadSlot) : (length (usedSlots l) ≤ length l)%nat.
Proof. apply length_filter. Qed.

(** X7. Once the slot-count effect has run, a submission carries at most
    five files: every file part of the form is named file1, file2, file3,
    file4 or file5. *)
Theorem at_most_five_files (st : State) (k : string) :
  k ∈ fst <$> form (buildParts (usedSlots (slots (slotCountEffect st)))) →
  ∃ n, (1 ≤ n ≤ 5)%nat ∧ k = "file" +:+ JS.nat_toString n.
Proof.
  rewrite buildParts_form, fileEntries_names.
  intros Hk. apply list_elem_of_fmap in Hk as (i & -> & Hi).
  apply elem_of_seq in Hi.
  pose proof (usedSlots_length (slots (slotCountEffect st))) as Hu.
  pose proof (slotCountEffect_length st) as Hl.
  pose proof (clamped_range (totalSlots st)) as Hr.
  exists (i + 1)%nat. split; [lia | reflexivity].
Qed.

Lemma at_most_five_files_witness :
  ∃ n, (1 ≤ n ≤ 5)%nat ∧ "file2" = "file" +:+ JS.nat_toString n.
Proof.
  apply (at_most_five_files Sample.page "file2").
  vm_compute. apply list_elem_of_In. right. left. reflexivity.
Defined.

(** ** The name of the saved file, again *)

Lemma includes_spec (s p : string) :
  JS.includes s p = true ↔ ∃ a b, s = a +:+ p +:+ b.
Proof.
  induction s as [|c s IH].
  - cbn [JS.includes]. rewrite orb_false_r, prefix_spec. split.
    + intros [r Hr]. by exists "", r.
    + intros ([|? ?] & b & Hab); [by exists b | discriminate].
  - rewrite includes_cons, orb_true_iff, prefix_spec, IH. split.
    + intros [[r Hr] | (a & b & ->)].
      * by exists "", r.
      * by exists (String c a), b.
    + intros ([|d a] & b & Hab).
      * left. by exists b.
      * right. rewrite string_app_cons in Hab. injection Hab as _ ->. by exists a, b.
Qed.

Lemma literalCI_suffix (lit s r : string) :
  literalCI lit s = Some r → ∃ k, s = k +:+ r.
Proof.
  revert s. induction lit as [|a lit IH]; intros s.
  - destruct s; intros [= <-]; by exists "".
  - destruct s as [|b s]; cbn [literalCI]; [discriminate|].
    destruct (Ascii.eqb _ _); [|discriminate].
    intros H. destruct (IH _ H) as [k ->]. by exists (String b k).
Qed.

Lemma literalCI_any_case (lit k r : string) :
  JS.toLowerCase k = JS.toLowerCase lit → literalCI lit (k +:+ r) = Some r.
Proof.
  revert k. induction lit as [|a lit IH]; intros k Hk.
  - destruct k; [by destruct r | discriminate].
  - destruct k as [|b k]; [discriminate|].
    cbn [JS.toLowerCase] in Hk. injection Hk as Hb Hk.
    rewrite string_app_cons. cbn [literalCI].
    rewrite Hb, Ascii.eqb_refl. by apply IH.
Qed.

Lemma notQuote_prefix (s : string) : ∃ rest, s = notQuote s +:+ rest.
Proof.
  induction s as [|c s [rest IH]]; [by exists ""|].
  cbn [notQuote]. destruct (Ascii.eqb c JS.dquote).
  - by exists (String c s).
  - exists rest. by rewrite string_app_cons, <- IH.
Qed.

Lemma notQuote_quoteless (s : string) : JS.includes (notQuote s) JS.quote = false.
Proof.
  induction s as [|c s IH]; [reflexivity|].
  cbn [notQuote]. destruct (Ascii.eqb_spec c JS.dquote) as [->|Hne]; [reflexivity|].
  rewrite includes_cons, IH, orb_false_r.
  destruct (String.prefix JS.quote (String c (notQuote s))) eqn:Hp; [|reflexivity].
  apply prefix_spec in Hp as [r Hr].
  change (JS.quote +:+ r) with (String JS.dquote r) in Hr. by injection Hr.
Qed.

Lemma notQuote_idempotent (s : string) : notQuote (notQuote s) = notQuote s.
Proof.
  induction s as [|c s IH]; [reflexivity|].
  cbn [notQuote]. destruct (Ascii.eqb c JS.dquote) eqn:Hc; [reflexivity|].
  cbn [notQuote]. by rewrite Hc, IH.
Qed.

Lemma matchAt_within (s g : string) :
  matchAt s = Some g →
  g ≠ "" ∧ notQuote g = g ∧ ∃ a b, s = a +:+ g +:+ b.
Proof.
  intros Hm. split; [by eapply matchAt_nonempty|].
  unfold matchAt in Hm.
  destruct (literalCI "filename=" s) as [r|] eqn:Hlit; [|discriminate].
  apply literalCI_suffix in Hlit as [k ->].
  assert (Hgen : ∀ q r', JS.truthy (notQuote r') = true →
            notQuote (notQuote r') = notQuote r'
            ∧ ∃ a b, k +:+ q +:+ r' = a +:+ notQuote r' +:+ b).
  { intros q r' _. split; [apply notQuote_idempotent|].
    destruct (notQuote_prefix r') as [rest Hrest].
    exists (k +:+ q), rest. rewrite Hrest at 1. by rewrite !string_app_assoc. }
  destruct r as [|c t]; [discriminate|].
  destruct (Ascii.eqb c JS.dquote); cbv zeta in Hm.
  - destruct (JS.truthy (notQuote t)) eqn:Ht; [|discriminate].
    injection Hm as <-. apply (Hgen (String c "") t Ht).
  - destruct (JS.truthy (notQuote (String c t))) eqn:Ht; [|discriminate].
    injection Hm as <-. apply (Hgen "" (String c t) Ht).
Qed.

(** X8. Whatever the Content-Disposition header holds, a name taken from
    it is never empty, holds no double quote, and is a run of characters
    of the header itself. *)
Theorem matched_name_is_clean (s g : string) :
  matchFilename s = Some g →
  g ≠ "" ∧ JS.includes g JS.quote = false ∧ JS.includes s g = true.
Proof.
  intros Hm.
  assert (H : g ≠ "" ∧ notQuote g = g ∧ ∃ a b, s = a +:+ g +:+ b).
  { induction s as [|c s IH]; cbn [matchFilename] in Hm.
    - destruct (matchAt "") as [g'|] eqn:Hat; [|discriminate].
      injection Hm as ->. by apply matchAt_within.
    - destruct (matchAt (String c s)) as [g'|] eqn:Hat.
      + injection Hm as ->. by apply matchAt_within.
      + destruct (IH Hm) as (Hne & Hq & a & b & ->).
        split; [done|]. split; [done|]. by exists (String c a), b. }
  destruct H as (Hne & Hq & Hsub). split; [done|]. split.
  - rewrite <- Hq. apply notQuote_quoteless.
  - by apply includes_spec.
Qed.

Lemma matched_name_is_clean_witness :
  JS.includes "abc.csv; x" JS.quote = false
  ∧ JS.includes "attachment; FILENAME=abc.csv; x" "abc.csv; x" = true.
Proof.
  pose proof (matched_name_is_clean "attachment; FILENAME=abc.csv; x" "abc.csv; x"
                eq_refl) as (_ & Hq & Hin).
  split; [exact Hq | exact Hin].
Defined.

Lemma notQuote_head (n : string) :
  n ≠ "" → notQuote n = n →
  match n with
  | String c t => if Ascii.eqb c JS.dquote then t else n
  | EmptyString => n
  end = n.
Proof.
  destruct n as [|c t]; [done|]. intros _. cbn [notQuote].
  by destruct (Ascii.eqb c JS.dquote).
Qed.

(** X9. The header key is read in any case, and the name after it with
    or without quotes: between quotes the name is what stands between
    them; without quotes it runs to the end of the header, later
    parameters included. *)
Theorem filename_key_any_case (kw n : string) :
  JS.toLowerCase kw = "filename" → n ≠ "" → notQuote n = n →
  matchFilename (kw +:+ "=" +:+ JS.quote +:+ n +:+ JS.quote) = Some n
  ∧ matchFilename (kw +:+ "=" +:+ n) = Some n.
Proof.
  intros Hkw Hne Hn.
  assert (Hlit : ∀ r, literalCI "filename=" (kw +:+ "=" +:+ r) = Some r).
  { intros r. rewrite <- string_app_assoc. apply literalCI_any_case.
    rewrite toLowerCase_app, Hkw. reflexivity. }
  split; apply matchFilename_here; unfold matchAt; rewrite Hlit.
  - change (JS.quote +:+ n +:+ JS.quote) with (String JS.dquote (n +:+ JS.quote +:+ "")).
    cbv beta iota zeta. rewrite Ascii.eqb_refl, notQuote_app by done. by destruct n.
  - rewrite notQuote_head by done. cbv zeta. rewrite Hn. by destruct n.
Qed.

Lemma filename_key_any_case_witness :
  matchFilename ("FileName" +:+ "=" +:+ JS.quote +:+ "out.xlsx" +:+ JS.quote)
    = Some "out.xlsx"
  ∧ matchFilename ("FileName" +:+ "=" +:+ "out.csv; size=3") = Some "out.csv; size=3".
Proof.
  split.
  - apply (filename_key_any_case "FileName" "out.xlsx"); [reflexivity | discriminate | reflexivity].
  - apply (filename_key_any_case "FileName" "out.csv; size=3");
      [reflexivity | discriminate | reflexivity].
Defined.

Lemma includes_longer (s a p b : string) :
  JS.includes s (a +:+ p +:+ b) = true → JS.includes s p = true.
Proof.
  rewrite !includes_spec. intros (x & y & ->).
  exists (x +:+ a), (b +:+ y). by rewrite !string_app_assoc.
Qed.

(** X10. The saved file always has a name. When the reply names none, a
    content type that contains text/csv gives planilhanova.csv, and one
    that does not contain csv (the spreadsheet type, or none at all)
    gives planilhanova.xlsx. *)
Theorem default_name_by_content_type (res : Response) :
  downloadName res ≠ ""
  ∧ (matchFilename (JS.opt_or_else (headersGet "content-disposition" res) "") = None →
     (∀ ct, headersGet "content-type" res = Some ct →
            JS.includes ct "text/csv" = true → downloadName res = "planilhanova.csv")
     ∧ (∀ ct, headersGet "content-type" res = Some ct →
              JS.includes ct "csv" = false → downloadName res = "planilhanova.xlsx")
     ∧ (headersGet "content-type" res = None → downloadName res = "planilhanova.xlsx")).
Proof.
  rewrite downloadName_cases. split.
  - destruct (matchFilename _) as [g|] eqn:Hm.
    + by eapply matchFilename_nonempty.
    + destruct (match headersGet "content-type" res with
                | Some ct => JS.includes ct "csv" | None => false end); discriminate.
  - intros ->. split; [|split].
    + intros ct -> Hcsv.
      rewrite (includes_longer ct "text/" "csv" ""); [reflexivity|].
      by rewrite string_app_nil_r.
    + by intros ct -> ->.
    + by intros ->.
Qed.

(** ** The form, field by field *)

Lemma fixed_names_not_files (i : nat) :
  fieldName i ∉ ["aliases"; "sheets"; "prompt"; "session_id"; "download"; "out_format"].
Proof.
  destruct (fieldName_head i) as [t ->].
  rewrite !not_elem_of_cons. repeat split; try discriminate. apply not_elem_of_nil.
Qed.

(** X11. The form holds, in this order, one part per slot in use, the
    aliases, the sheets only when some slot in use selects a sheet, then
    the prompt, the session identifier, the download flag and the output
    format; no field name occurs twice. *)
Theorem form_fields_in_order (used : list UploadSlot) (currentPrompt sid : string) (ad : bool) :
  ∃ mid,
    fst <$> buildForm used currentPrompt sid ad
    = (fieldName <$> seq 0 (length used)) ++ ["aliases"] ++ mid
      ++ ["prompt"; "session_id"; "download"; "out_format"]
    ∧ (mid = [] ∨ mid = ["sheets"])
    ∧ (mid = ["sheets"] ↔ ∃ s sh, s ∈ used ∧ sheet s = Some sh ∧ sh ≠ "")
    ∧ NoDup (fst <$> buildForm used currentPrompt sid ad).
Proof.
  unfold buildForm. rewrite buildParts_form, buildParts_sheets.
  assert (Hsel : JS.keys (sheetEntries 0 used) ≠ [] ↔
                 ∃ s sh, s ∈ used ∧ sheet s = Some sh ∧ sh ≠ "").
  { split.
    - intros Hk. destruct (nonempty_elem_of _ Hk) as [k Hin].
      apply sheetEntries_keys in Hin as (i & s & sh & Hi & Hs & _).
      apply selected_Some in Hs as [? ?]. exists s, sh.
      split; [by eapply list_elem_of_lookup_2 | done].
    - intros (s & sh & Hin & Hs & Hne) Hnil.
      apply list_elem_of_lookup in Hin as [i Hi].
      assert (fieldName (0 + i) ∈ JS.keys (sheetEntries 0 used)) as Hk.
      { apply sheetEntries_keys. exists i, s, sh. split; [done|].
        split; [by apply selected_Some | done]. }
      rewrite Hnil in Hk. by apply elem_of_nil in Hk. }
  exists (if bool_decide (JS.keys (sheetEntries 0 used) = []) then [] else ["sheets"]).
  assert (Hnames : ∀ mid' : list string,
    mid' = [] ∨ mid' = ["sheets"] →
    NoDup ((fieldName <$> seq 0 (length used)) ++ ["aliases"] ++ mid'
           ++ ["prompt"; "session_id"; "download"; "out_format"])).
  { intros mid' Hmid. apply NoDup_app. split; [apply fieldNames_NoDup|]. split.
    - intros k Hk Hin. apply list_elem_of_fmap in Hk as (i & -> & _).
      apply (fixed_names_not_files i). revert Hin.
      destruct Hmid as [-> | ->]; simpl; rewrite !elem_of_cons, !elem_of_nil; tauto.
    - destruct Hmid as [-> | ->]; simpl; apply (bool_decide_unpack _); by vm_compute. }
  rewrite !fmap_app, fileEntries_names.
  case_bool_decide as Hk; simpl.
  - split; [reflexivity|]. split; [by left|]. split.
    + split; [discriminate|]. intros Hex. apply Hsel in Hex. done.
    + apply (Hnames []). by left.
  - split; [reflexivity|]. split; [by right|]. split.
    + split; [intros _; by apply Hsel | done].
    + apply (Hnames ["sheets"]). by right.
Qed.

(** X12. Whatever the slots hold, the form carries the prompt as it was
    typed (not trimmed, possibly empty), the session identifier the
    handler was called with, and xlsx as the output format. *)
Theorem form_scalar_fields (used : list UploadSlot) (currentPrompt sid : string) (ad : bool) :
  formGet "prompt" (buildForm used currentPrompt sid ad) = Some (TextValue currentPrompt)
  ∧ formGet "session_id" (buildForm used currentPrompt sid ad) = Some (TextValue sid)
  ∧ formGet "out_format" (buildForm used currentPrompt sid ad) = Some (TextValue "xlsx").
Proof.
  unfold buildForm. rewrite buildParts_form.
  repeat split.
  - rewrite formGet_skip_files by by apply (fieldName_not _ "p" "rompt").
    unfold formGet. simpl. by case_bool_decide.
  - rewrite formGet_skip_files by by apply (fieldName_not _ "s" "ession_id").
    unfold formGet. simpl. by case_bool_decide.
  - rewrite formGet_skip_files by by apply (fieldName_not _ "o" "ut_format").
    unfold formGet. simpl. by case_bool_decide.
Qed.

(** ** The reply, case by case *)

Section Replies.

Variable JSON_parse : string → Result (option RunSummary).
Variable nullReadMessage : string.

(** The three ways a reply is dealt with: a notification; a file saved
    and an entry with the inline artifacts; an entry from a JSON result,
    with the session identifier adopted when it is a new, non-empty one. *)
Lemma resume_cases sid w reply st :
  (∃ text,
     resumeSubmit JSON_parse nullReadMessage sid w reply st
     = Normal tt (setLoading false (push text st)))
  ∨ (∃ res v b,
       reply = Returns res ∧ ok res = true ∧ isFile (ctype res) = true
       ∧ readSummary JSON_parse res = Returns v ∧ blob res = Returns b
       ∧ resumeSubmit JSON_parse nullReadMessage sid w reply st
         = Normal tt (setLoading false
             (setMessages (λ prev, prev ++ [Assistant (default placeholder v) inlineArtifacts w])
                (click (downloadName res) b st))))
  ∨ (∃ res d,
       reply = Returns res ∧ ok res = true ∧ isFile (ctype res) = false
       ∧ json_run res = Returns (Some d)
       ∧ resumeSubmit JSON_parse nullReadMessage sid w reply st
         = Normal tt (setLoading false
             (setMessages (λ prev, prev ++ [Assistant (summary d) (artifacts d) w])
                (if JS.truthy (session_id d) && negb (String.eqb (session_id d) sid)
                 then setSessionId (session_id d) st else st)))).
Proof.
  destruct reply as [res|e].
  2: { left. destruct (resume_rejected JSON_parse nullReadMessage sid w e st)
         as (text & Heq & _). eauto. }
  destruct (ok res) eqn:Hok.
  2: { left. eexists. by apply resume_failure. }
  destruct (isFile (ctype res)) eqn:Hfile.
  - destruct (readSummary JSON_parse res) as [v|e] eqn:Hsum;
      [destruct (blob res) as [b|e] eqn:Hblob|].
    + right. left. exists res, v, b. repeat (split; [done|]). by apply resume_file.
    + left. apply resume_file_unread; eauto.
    + left. apply resume_file_unread; eauto.
  - destruct (json_run res) as [[d|]|e] eqn:Hdata.
    + right. right. exists res, d. repeat (split; [done|]). by apply resume_json.
    + left. apply resume_json_unread; eauto.
    + left. apply resume_json_unread; eauto.
Qed.

(** X13. Handling a reply never touches the slots, the slot count, the
    auto-download preference or the prompt. The session identifier
    changes only for a 2xx JSON result carrying a non-empty identifier
    other than the one the handler was called with, and a file is saved
    only for a 2xx file reply whose body could be read. *)
Theorem reply_changes_little sid w reply st :
  slots (stateOf (resumeSubmit JSON_parse nullReadMessage sid w reply st)) = slots st
  ∧ totalSlots (stateOf (resumeSubmit JSON_parse nullReadMessage sid w reply st))
    = totalSlots st
  ∧ autoDownload (stateOf (resumeSubmit JSON_parse nullReadMessage sid w reply st))
    = autoDownload st
  ∧ prompt (stateOf (resumeSubmit JSON_parse nullReadMessage sid w reply st)) = prompt st
  ∧ (sessionId (stateOf (resumeSubmit JSON_parse nullReadMessage sid w reply st))
     ≠ sessionId st →
     ∃ res d, reply = Returns res ∧ ok res = true ∧ isFile (ctype res) = false
              ∧ json_run res = Returns (Some d)
              ∧ session_id d ≠ "" ∧ session_id d ≠ sid
              ∧ sessionId (stateOf (resumeSubmit JSON_parse nullReadMessage sid w reply st))
                = session_id d)
  ∧ (downloads (stateOf (resumeSubmit JSON_parse nullReadMessage sid w reply st))
     ≠ downloads st →
     ∃ res b, reply = Returns res ∧ ok res = true ∧ isFile (ctype res) = true
              ∧ blob res = Returns b
              ∧ downloads (stateOf (resumeSubmit JSON_parse nullReadMessage sid w reply st))
                = downloads st ++ [(downloadName res, b)]).
Proof.
  destruct (resume_cases sid w reply st)
    as [[text ->] | [(res & v & b & -> & Hok & Hfile & Hsum & Hblob & ->)
                    | (res & d & -> & Hok & Hfile & Hdata & ->)]]; simpl.
  - repeat split; done.
  - repeat split; try done. intros _. by exists res, b.
  - destruct (JS.truthy (session_id d)) eqn:Ht;
      [destruct (String.eqb_spec (session_id d) sid) as [Heq|Hne]|]; simpl.
    + repeat split; done.
    + repeat split; try done. intros _. exists res, d.
      repeat (split; [done|]). split; [by destruct (session_id d)|]. done.
    + repeat split; done.
Qed.

End Replies.

Section Conversations.

Variable JSON_parse : string → Result (option RunSummary).
Variable nullReadMessage : string.

Lemma readSummary_header (res : Response) (h : string) :
  headersGet "X-Run-Summary" res = Some h → h ≠ "" →
  readSummary JSON_parse res = JSON_parse h.
Proof. unfold readSummary. intros -> Hh. by destruct h. Qed.

Lemma resume_keeps sid w reply st :
  slots (stateOf (resumeSubmit JSON_parse nullReadMessage sid w reply st)) = slots st
  ∧ autoDownload (stateOf (resumeSubmit JSON_parse nullReadMessage sid w reply st))
    = autoDownload st
  ∧ prompt (stateOf (resumeSubmit JSON_parse nullReadMessage sid w reply st)) = prompt st.
Proof.
  destruct (resume_cases JSON_parse nullReadMessage sid w reply st)
    as [[text ->] | [(res & v & b & _ & _ & _ & _ & _ & ->)
                    | (res & d & _ & _ & _ & _ & ->)]]; simpl; [done | done |].
  by destruct (JS.truthy (session_id d) && negb (String.eqb (session_id d) sid)).
Qed.

(** X14. A file reply whose summary header does not parse is not saved:
    the parse comes first, so the handler stops there, tells the user the
    parser's message (or the generic one when what was thrown is not an
    error), appends no entry and saves nothing, readable body or not. *)
Theorem unparsed_summary_discards_file sid w res h e st :
  ok res = true → isFile (ctype res) = true →
  headersGet "X-Run-Summary" res = Some h → h ≠ "" → JSON_parse h = Throws e →
  resumeSubmit JSON_parse nullReadMessage sid w (Returns res) st
  = Normal tt (setLoading false
      (push (match e with
             | ErrorObject message => message
             | OtherValue => "Erro desconhecido ao processar."
             end) st))
  ∧ downloads (stateOf (resumeSubmit JSON_parse nullReadMessage sid w (Returns res) st))
    = downloads st
  ∧ messages (stateOf (resumeSubmit JSON_parse nullReadMessage sid w (Returns res) st))
    = messages st.
Proof.
  intros Hok Hfile Hh Hne He.
  assert (Hsum : readSummary JSON_parse res = Throws e)
    by by rewrite (readSummary_header res h).
  assert (Heq : resumeSubmit JSON_parse nullReadMessage sid w (Returns res) st
    = Normal tt (setLoading false
        (push (match e with
               | ErrorObject message => message
               | OtherValue => "Erro desconhecido ao processar."
               end) st))).
  { cbv [resumeSubmit tryFinally tryCatch bind settle onResponse onCatch run ret throw].
    rewrite Hok, Hfile, Hsum. simpl. by destruct e. }
  rewrite Heq. by repeat split.
Qed.

(** X15. A file reply whose summary header parses to a summary appends
    that summary as it is; one whose header parses to a falsy value, such
    as null, appends the placeholder. Either entry carries the inline
    artifacts, under which the page offers no link at all. *)
Theorem parsed_summary_shown sid w res h b st :
  ok res = true → isFile (ctype res) = true →
  headersGet "X-Run-Summary" res = Some h → h ≠ "" → blob res = Returns b →
  (∀ s, JSON_parse h = Returns (Some s) →
     messages (stateOf (resumeSubmit JSON_parse nullReadMessage sid w (Returns res) st))
     = messages st ++ [Assistant s inlineArtifacts w])
  ∧ (JSON_parse h = Returns None →
     messages (stateOf (resumeSubmit JSON_parse nullReadMessage sid w (Returns res) st))
     = messages st ++ [Assistant placeholder inlineArtifacts w])
  ∧ ∀ API, shownLinks API inlineArtifacts = [].
Proof.
  intros Hok Hfile Hh Hne Hblob.
  pose proof (readSummary_header res h Hh Hne) as Hsum.
  split; [|split; [|reflexivity]].
  - intros s Hs. rewrite Hs in Hsum.
    by rewrite (resume_file _ _ sid w res (Some s) b).
  - intros Hs. rewrite Hs in Hsum.
    by rewrite (resume_file _ _ sid w res None b).
Qed.

(** X16. A JSON result whose session identifier is empty, or is the one
    the handler was called with, leaves the current identifier alone and
    still appends its entry, with the summary and the artifacts of the
    result. *)
Theorem same_session_kept sid w res d st :
  ok res = true → isFile (ctype res) = false → json_run res = Returns (Some d) →
  session_id d = "" ∨ session_id d = sid →
  sessionId (stateOf (resumeSubmit JSON_parse nullReadMessage sid w (Returns res) st))
  = sessionId st
  ∧ messages (stateOf (resumeSubmit JSON_parse nullReadMessage sid w (Returns res) st))
    = messages st ++ [Assistant (summary d) (artifacts d) w].
Proof.
  intros Hok Hfile Hdata Hsid.
  rewrite (resume_json _ _ sid w res d) by done.
  destruct Hsid as [-> | ->]; simpl; [done|].
  rewrite String.eqb_refl, andb_false_r. done.
Qed.


(** X18. When the request itself fails, the user is told the error's own
    message, or the generic one when what was thrown is not an error. The
    user turn stays in the transcript and the prompt stays cleared, so the
    text has to be typed again; nothing is saved, the session identifier
    stays and the loading flag is lowered. *)
Theorem rejected_fetch_notified
    (fetch : FormData → Result Response) (w1 w2 : string) (e : Thrown) (st : State) :
  usedSlots (slots st) ≠ [] →
  fetch (buildForm (usedSlots (slots st)) (prompt st) (sessionId st) (autoDownload st))
    = Throws e →
  submit JSON_parse nullReadMessage fetch w1 w2 st
  = Normal tt
      {| sessionId := sessionId st;
         messages := messages st ++ [User (prompt st) w1];
         slots := slots st;
         totalSlots := totalSlots st;
         autoDownload := autoDownload st;
         prompt := "";
         loading := false;
         toasts := toasts st ++ [match e with
                                 | ErrorObject message => message
                                 | OtherValue => "Erro desconhecido ao processar."
                                 end];
         downloads := downloads st |}.
Proof.
  intros Hused Hfetch.
  assert (Hlen : (length (usedSlots (slots st)) <? 1)%nat = false).
  { apply Nat.ltb_ge. destruct (usedSlots (slots st)); [done | simpl; lia]. }
  unfold submit, handleSubmit. rewrite Hlen. cbv zeta.
  cbn [sessionId autoDownload setMessages setLoading setPrompt].
  rewrite Hfetch.
  cbv [resumeSubmit tryFinally tryCatch bind settle onCatch run ret throw].
  by destruct e.
Qed.

(** X19. Pressing the button again after a submission has run its course
    sends the same files under the same names, with an empty prompt: the
    field was cleared by the first press, and the page does not ask for
    text before it sends. The new user turn is empty too. *)
Theorem resubmission_sends_empty_prompt
    (fetch : FormData → Result Response) (w1 w2 w3 w4 : string) (st : State) :
  usedSlots (slots st) ≠ [] →
  ∃ st2,
    handleSubmit JSON_parse nullReadMessage w3 w4
      (stateOf (submit JSON_parse nullReadMessage fetch w1 w2 st))
    = Awaiting st2
        (buildForm (usedSlots (slots st)) ""
           (sessionId (stateOf (submit JSON_parse nullReadMessage fetch w1 w2 st)))
           (autoDownload st))
        (resumeSubmit JSON_parse nullReadMessage
           (sessionId (stateOf (submit JSON_parse nullReadMessage fetch w1 w2 st))) w4)
    ∧ messages st2
      = messages (stateOf (submit JSON_parse nullReadMessage fetch w1 w2 st))
        ++ [User "" w3].
Proof.
  intros Hused.
  assert (Hlen : (length (usedSlots (slots st)) <? 1)%nat = false).
  { apply Nat.ltb_ge. destruct (usedSlots (slots st)); [done | simpl; lia]. }
  unfold submit. unfold handleSubmit at 2. rewrite Hlen. cbv zeta.
  set (st1 := setMessages _ (setLoading true (setPrompt "" st))).
  set (reply := fetch _).
  destruct (resume_keeps (sessionId (setMessages (λ prev, prev ++ [User (prompt st) w1])
                                       (setLoading true (setPrompt "" st))))
              w2 reply st1) as (Hs & Ha & Hp).
  fold st1 in Hs, Ha, Hp.
  change (sessionId st1) with (sessionId st) in *.
  set (st' := stateOf (resumeSubmit JSON_parse nullReadMessage (sessionId st) w2 reply st1))
    in *.
  change (slots st1) with (slots st) in Hs.
  change (autoDownload st1) with (autoDownload st) in Ha.
  change (prompt st1) with "" in Hp.
  unfold handleSubmit. cbn [slots setPrompt setLoading setMessages sessionId autoDownload prompt].
  rewrite Hs, Hlen, Ha, Hp. eexists. split; reflexivity.
Qed.

(** X20. An identifier adopted from a JSON result is the one the next
    submission sends as its session_id field. *)
Theorem adopted_session_sent_next sid w w3 w4 res d st :
  ok res = true → isFile (ctype res) = false → json_run res = Returns (Some d) →
  session_id d ≠ "" → session_id d ≠ sid → usedSlots (slots st) ≠ [] →
  ∃ st2 request resume,
    handleSubmit JSON_parse nullReadMessage w3 w4
      (stateOf (resumeSubmit JSON_parse nullReadMessage sid w (Returns res) st))
    = Awaiting st2 request resume
    ∧ formGet "session_id" request = Some (TextValue (session_id d)).
Proof.
  intros Hok Hfile Hdata Hne Hdiff Hused.
  assert (Hlen : (length (usedSlots (slots st)) <? 1)%nat = false).
  { apply Nat.ltb_ge. destruct (usedSlots (slots st)); [done | simpl; lia]. }
  rewrite (resume_json _ _ sid w res d) by done.
  assert (JS.truthy (session_id d) = true) as -> by by destruct (session_id d).
  apply String.eqb_neq in Hdiff. rewrite Hdiff. simpl.
  unfold handleSubmit. simpl. rewrite Hlen.
  eexists. eexists. eexists. split; [reflexivity|].
  unfold buildForm. rewrite buildParts_form.
  rewrite formGet_skip_files by by apply (fieldName_not _ "s" "ession_id").
  unfold formGet. simpl. by case_bool_decide.
Qed.

(** X21. A JSON result that arrives after the user has started a new
    conversation lands in the new transcript, as its only entry; and when
    it carries a non-empty identifier other than the one the request was
    sent with, that identifier replaces the fresh one of the new
    conversation. *)
Theorem late_result_joins_new_chat sid w fresh res d st :
  ok res = true → isFile (ctype res) = false → json_run res = Returns (Some d) →
  messages (stateOf (resumeSubmit JSON_parse nullReadMessage sid w (Returns res)
                       (newChat fresh st)))
  = [Assistant (summary d) (artifacts d) w]
  ∧ (session_id d ≠ "" → session_id d ≠ sid →
     sessionId (stateOf (resumeSubmit JSON_parse nullReadMessage sid w (Returns res)
                           (newChat fresh st)))
     = session_id d)
  ∧ (session_id d = "" ∨ session_id d = sid →
     sessionId (stateOf (resumeSubmit JSON_parse nullReadMessage sid w (Returns res)
                           (newChat fresh st)))
     = fresh).
Proof.
  intros Hok Hfile Hdata.
  rewrite (resume_json _ _ sid w res d) by done.
  split; [|split].
  - by destruct (JS.truthy (session_id d) && negb (String.eqb (session_id d) sid)).
  - intros Hne Hdiff.
    assert (JS.truthy (session_id d) = true) as -> by by destruct (session_id d).
    apply String.eqb_neq in Hdiff. by rewrite Hdiff.
  - intros [-> | ->]; simpl; [done|]. by rewrite String.eqb_refl, andb_false_r.
Qed.

End Conversations.

Lemma unparsed_summary_discards_file_witness :
  downloads (stateOf (resumeSubmit Sample.parse "" "abc" "t2"
     (Returns {| ok := true;
                 headers := [("content-type", "text/csv"); ("x-run-summary", "{")];
                 json_error := Throws OtherValue;
                 json_run := Throws OtherValue;
                 blob := Returns "id,nome" |}) Sample.page))
  = [].
Proof.
  pose proof (unparsed_summary_discards_file Sample.parse "" "abc" "t2"
     {| ok := true;
        headers := [("content-type", "text/csv"); ("x-run-summary", "{")];
        json_error := Throws OtherValue;
        json_run := Throws OtherValue;
        blob := Returns "id,nome" |}
     "{" (ErrorObject "Unexpected token") Sample.page
     eq_refl eq_refl eq_refl ltac:(discriminate) eq_refl) as (_ & Hd & _).
  exact Hd.
Defined.

Lemma parsed_summary_shown_witness :
  messages (stateOf (resumeSubmit Sample.parse "" "abc" "t2"
     (Returns {| ok := true;
                 headers := [("content-type", "text/csv"); ("x-run-summary", "null")];
                 json_error := Throws OtherValue;
                 json_run := Throws OtherValue;
                 blob := Returns "id,nome" |}) Sample.page))
  = [Assistant placeholder inlineArtifacts "t2"].
Proof.
  pose proof (parsed_summary_shown Sample.parse "" "abc" "t2"
     {| ok := true;
        headers := [("content-type", "text/csv"); ("x-run-summary", "null")];
        json_error := Throws OtherValue;
        json_run := Throws OtherValue;
        blob := Returns "id,nome" |}
     "null" "id,nome" Sample.page
     eq_refl eq_refl eq_refl ltac:(discriminate) eq_refl) as (_ & Hnull & _).
  exact (Hnull eq_refl).
Defined.

Lemma same_session_kept_witness :
  sessionId (stateOf (resumeSubmit Sample.parse "" "abc" "t2"
                        (Returns (Sample.jsonReply "abc")) Sample.page))
  = "abc".
Proof.
  pose proof (same_session_kept Sample.parse "" "abc" "t2" (Sample.jsonReply "abc") _
                Sample.page eq_refl eq_refl eq_refl (or_intror eq_refl)) as [H _].
  exact H.
Defined.


Lemma resubmission_sends_empty_prompt_witness :
  ∃ st2 resume,
    handleSubmit Sample.parse "" "t3" "t4"
      (stateOf (submit Sample.parse "" (λ _, Returns Sample.csvReply) "t1" "t2" Sample.page))
    = Awaiting st2
        [("file1", FileValue Sample.a_xlsx);
         ("file2", FileValue Sample.b_csv);
         ("aliases", TextValue (JS.stringify [("file1", "usuarios_id"); ("file2", "usuarios_cpf")]));
         ("prompt", TextValue "");
         ("session_id", TextValue "abc");
         ("download", TextValue "1");
         ("out_format", TextValue "xlsx")]
        resume.
Proof.
  destruct (resubmission_sends_empty_prompt Sample.parse ""
              (λ _, Returns Sample.csvReply) "t1" "t2" "t3" "t4" Sample.page)
    as (st2 & Heq & _); [discriminate|].
  eexists. eexists. exact Heq.
Defined.

Lemma adopted_session_sent_next_witness :
  ∃ st2 request resume,
    handleSubmit Sample.parse "" "t3" "t4"
      (stateOf (resumeSubmit Sample.parse "" "abc" "t2"
                  (Returns (Sample.jsonReply "xyz")) Sample.page))
    = Awaiting st2 request resume
    ∧ formGet "session_id" request = Some (TextValue "xyz").
Proof.
  apply (adopted_session_sent_next Sample.parse "" "abc" "t2" "t3" "t4"
           (Sample.jsonReply "xyz") _ Sample.page eq_refl eq_refl eq_refl);
    discriminate.
Defined.

Lemma late_result_joins_new_chat_witness :
  sessionId (stateOf (resumeSubmit Sample.parse "" "abc" "t2"
                        (Returns (Sample.jsonReply "xyz")) (newChat "fresh" Sample.page)))
  = "xyz".
Proof.
  pose proof (late_result_joins_new_chat Sample.parse "" "abc" "t2" "fresh"
                (Sample.jsonReply "xyz") _ Sample.page eq_refl eq_refl eq_refl)
    as (_ & H & _).
  apply H; discriminate.
Defined.

(** ** Notices *)

Section Notices.

Context {Id : Type} `{EqDecision Id}.

Lemma expire_push_same (i : Id) (t : string) (ts : list (Toasts.ToastT Id)) :
  Toasts.expire i (Toasts.push i t ts) = Toasts.expire i ts.
Proof.
  unfold Toasts.expire, Toasts.push. rewrite filter_app, filter_cons. simpl.
  rewrite decide_False by (by intros ?). by rewrite filter_nil, app_nil_r.
Qed.

Lemma expire_absent (i : Id) (ts : list (Toasts.ToastT Id)) :
  i ∉ Toasts.id <$> ts → Toasts.expire i ts = ts.
Proof.
  unfold Toasts.expire. induction ts as [|x ts IH]; intros Hi; [reflexivity|].
  rewrite fmap_cons in Hi. apply not_elem_of_cons in Hi as [Hx Hi].
  rewrite filter_cons, decide_True by (by intros ?). by rewrite IH.
Qed.

(** X22. The timer of a notice removes the notices with its identifier
    and no other, keeping the rest in order: a notice whose identifier is
    new to the queue comes and goes leaving the queue as it was, timers
    of different notices do not disturb one another, in whatever order
    they fire, and two notices with the same text and different
    identifiers are two notices. Were two notices given one identifier,
    the first timer to fire would take both. *)
Theorem notice_expires_alone (i : Id) (t : string) (ts : list (Toasts.ToastT Id)) :
  (i ∉ Toasts.id <$> ts → Toasts.expire i (Toasts.push i t ts) = ts)
  ∧ (∀ j u, j ≠ i →
       Toasts.expire j (Toasts.push i t (Toasts.push j u ts))
       = Toasts.push i t (Toasts.expire j ts))
  ∧ (∀ j, Toasts.expire i (Toasts.expire j ts) = Toasts.expire j (Toasts.expire i ts))
  ∧ (∀ x, x ∈ Toasts.expire i ts ↔ x ∈ ts ∧ Toasts.id x ≠ i)
  ∧ (∀ u, Toasts.expire i (Toasts.push i u (Toasts.push i t ts)) = Toasts.expire i ts)
  ∧ Toasts.text <$> Toasts.push i t ts = (Toasts.text <$> ts) ++ [t].
Proof.
  split; [|split; [|split; [|split; [|split]]]].
  - intros Hi. rewrite expire_push_same. by apply expire_absent.
  - intros j u Hne. unfold Toasts.expire, Toasts.push.
    rewrite !filter_app, !filter_cons, !filter_nil. simpl.
    rewrite decide_False by (by intros ?). rewrite decide_True by done.
    by rewrite app_nil_r.
  - intros j. unfold Toasts.expire. rewrite !list_filter_filter.
    apply list_filter_iff. tauto.
  - intros x. unfold Toasts.expire. rewrite list_elem_of_filter. tauto.
  - intros u. by rewrite !expire_push_same.
  - unfold Toasts.push. by rewrite fmap_app.
Qed.

End Notices.

(** ** The browser store *)

Lemma removeItems_lookup (ks : list string) (ls : Storage) (k : string) :
  removeItems ks ls !! k = if decide (k ∈ ks) then None else ls !! k.
Proof.
  unfold removeItems. revert ls. induction ks as [|k' ks IH]; intros ls; cbn [foldl].
  - by rewrite decide_False by apply not_elem_of_nil.
  - rewrite IH. destruct (decide (k ∈ ks)) as [Hin|Hnin].
    + rewrite decide_True; [done | by right].
    + destruct (decide (k = k')) as [->|Hne].
      * rewrite lookup_delete_eq. rewrite decide_True; [done | by left].
      * rewrite lookup_delete_ne by done.
        rewrite decide_False; [done|]. rewrite elem_of_cons. tauto.
Qed.

Lemma chatKeys_elem_of (ls : Storage) (k : string) :
  k ∈ chatKeys ls ↔ JS.startsWith k "planilhas.chat." = true ∧ is_Some (ls !! k).
Proof.
  unfold chatKeys. rewrite list_elem_of_In, filter_In, <- list_elem_of_In.
  rewrite list_elem_of_fmap. split.
  - intros [([k' v] & -> & Hin) Hp]. apply elem_of_map_to_list in Hin.
    split; [done | by exists v].
  - intros [Hp [v Hv]]. split; [|done]. exists (k, v). split; [done|].
    by apply elem_of_map_to_list.
Qed.

(** X23. The effect run on mount removes from the store exactly the
    entries whose key starts with planilhas.chat. and leaves every other
    entry as it was; the four preferences of the page, kept under
    planilhas.slots, planilhas.totalSlots, planilhas.autoDownload and
    planilhas.prompt, survive it. The transcript is not touched. *)
Theorem chat_entries_purged (uuid : string) (st : State) (ls : Storage) (k : string) :
  (mountEffect uuid st ls).2 !! k
    = (if JS.startsWith k "planilhas.chat." then None else ls !! k)
  ∧ (k ∈ ["planilhas.slots"; "planilhas.totalSlots"; "planilhas.autoDownload";
          "planilhas.prompt"] →
     (mountEffect uuid st ls).2 !! k = ls !! k)
  ∧ messages (mountEffect uuid st ls).1 = messages st
  ∧ slots (mountEffect uuid st ls).1 = slots st.
Proof.
  assert (Hk : (mountEffect uuid st ls).2 !! k
               = (if JS.startsWith k "planilhas.chat." then None else ls !! k)).
  { unfold mountEffect. simpl. rewrite removeItems_lookup.
    destruct (decide (k ∈ chatKeys ls)) as [Hin|Hnin].
    - apply chatKeys_elem_of in Hin as [-> _]. done.
    - destruct (JS.startsWith k "planilhas.chat.") eqn:Hp; [|done].
      destruct (ls !! k) as [v|] eqn:Hv; [|done].
      exfalso. apply Hnin, chatKeys_elem_of. split; [done | by exists v]. }
  split; [exact Hk|]. split; [|by split].
  intros Hpref. rewrite Hk.
  rewrite !elem_of_cons, elem_of_nil in Hpref.
  destruct Hpref as [-> | [-> | [-> | [-> | []]]]]; reflexivity.
Qed.

Lemma removeDashes_app (a b : string) :
  removeDashes (a +:+ b) = removeDashes a +:+ removeDashes b.
Proof.
  induction a as [|c a IH]; [reflexivity|].
  rewrite string_app_cons. cbn [removeDashes].
  destruct (Ascii.eqb c "-"); [done|]. by rewrite IH.
Qed.

Lemma removeDashes_dashless (s : string) :
  JS.includes s "-" = false → removeDashes s = s.
Proof.
  induction s as [|c s IH]; intros Hs; [reflexivity|].
  rewrite includes_cons in Hs. apply orb_false_elim in Hs as [Hc Hs].
  cbn [removeDashes]. destruct (Ascii.eqb_spec c "-") as [->|_].
  - assert (String.prefix "-" (String "-" s) = true) as Hp
      by (apply prefix_spec; by exists s).
    congruence.
  - by rewrite IH.
Qed.

Lemma removeDashes_clean (s : string) : JS.includes (removeDashes s) "-" = false.
Proof.
  induction s as [|c s IH]; [reflexivity|].
  cbn [removeDashes]. destruct (Ascii.eqb_spec c "-") as [->|Hne]; [exact IH|].
  rewrite includes_cons, IH, orb_false_r.
  destruct (String.prefix "-" (String c (removeDashes s))) eqn:Hp; [|reflexivity].
  apply prefix_spec in Hp as [r Hr]. change ("-" +:+ r) with (String "-" r) in Hr.
  by injection Hr.
Qed.

(** X24. The session identifier set on mount holds no dash, and for an
    identifier made of groups joined by dashes, as a UUID is, it is the
    groups one after the other, nothing else dropped or reordered. *)
Theorem session_id_without_dashes (uuid : string) (groups : list string)
    (st : State) (ls : Storage) :
  JS.includes (sessionId (mountEffect uuid st ls).1) "-" = false
  ∧ (uuid = JS.join "-" groups →
     (∀ g, g ∈ groups → JS.includes g "-" = false) →
     sessionId (mountEffect uuid st ls).1 = JS.join "" groups).
Proof.
  split; [apply removeDashes_clean|].
  intros -> Hgroups. unfold mountEffect, JS.join. simpl.
  induction groups as [|g groups IH]; [reflexivity|].
  assert (Hg : removeDashes g = g)
    by (apply removeDashes_dashless, Hgroups; by left).
  assert (Hrest : ∀ g', g' ∈ groups → JS.includes g' "-" = false)
    by (intros g' Hin; apply Hgroups; by right).
  destruct groups as [|g' groups]; [exact Hg|].
  cbn [String.concat] in *.
  rewrite !removeDashes_app, Hg. cbn [removeDashes Ascii.eqb]. simpl (Ascii.eqb _ _).
  change (removeDashes "-") with "". rewrite (IH Hrest). reflexivity.
Qed.

Section StoredState.

Context {T : Type} (stringify : T → string) (parse : string → Result T).

(** X25. A state written to the store comes back on the next load when
    its text parses back to it and is not the empty text; writing under
    one key does not change what another key loads; and a key that is
    absent, or holds the empty text, loads the initial value. *)
Theorem stored_state_comes_back (key : string) (v initial : T) (ls : Storage) :
  parse (stringify v) = Returns v → stringify v ≠ "" →
  initialState parse key initial (persist stringify key v ls) = Returns v
  ∧ (∀ key', key' ≠ key →
       initialState parse key' initial (persist stringify key v ls)
       = initialState parse key' initial ls)
  ∧ (ls !! key = None → initialState parse key initial ls = Returns initial)
  ∧ (ls !! key = Some "" → initialState parse key initial ls = Returns initial).
Proof.
  intros Hround Hne. unfold initialState, persist.
  split; [|split; [|split]].
  - rewrite lookup_insert_eq. destruct (stringify v); [done | exact Hround].
  - intros key' Hk. by rewrite lookup_insert_ne.
  - by intros ->.
  - by intros ->.
Qed.

End StoredState.

Lemma stored_state_comes_back_witness :
  initialState
    (λ raw, if String.eqb raw "true" then Returns true
            else if String.eqb raw "false" then Returns false
            else Throws (ErrorObject "Unexpected token"))
    "planilhas.autoDownload" true
    (persist (λ b : bool, if b then "true" else "false")
       "planilhas.autoDownload" false ∅)
  = Returns false.
Proof.
  pose proof (stored_state_comes_back
    (λ b : bool, if b then "true" else "false")
    (λ raw, if String.eqb raw "true" then Returns true
            else if String.eqb raw "false" then Returns false
            else Throws (ErrorObject "Unexpected token"))
    "planilhas.autoDownload" false true ∅ eq_refl ltac:(discriminate)) as [H _].
  exact H.
Defined.

Lemma rejected_fetch_notified_witness :
  submit Sample.parse "" (λ _, Throws (ErrorObject "Failed to fetch")) "t1" "t2" Sample.page
  = Normal tt
      {| sessionId := "abc";
         messages := [User "merge by name" "t1"];
         slots := slots Sample.page;
         totalSlots := Some 2;
         autoDownload := true;
         prompt := "";
         loading := false;
         toasts := ["Failed to fetch"];
         downloads := [] |}.
Proof.
  apply (rejected_fetch_notified Sample.parse ""
           (λ _, Throws (ErrorObject "Failed to fetch")) "t1" "t2"
           (ErrorObject "Failed to fetch") Sample.page); [discriminate | reflexivity].
Defined.

(** ** Links *)

(** X26. Under an assistant entry the page offers at most two links, the
    result and the unmatched rows, each only when its address is not
    empty and each pointing below the address of the service; the log is
    never offered, whatever its address. *)
Theorem links_offered (API : string) (a : Artifacts) :
  (∀ label href, (label, href) ∈ shownLinks API a →
     ∃ path, path ≠ "" ∧ href = API +:+ path
             ∧ ((label = "Baixar resultado" ∧ result_url a = path)
                ∨ (label = "Baixar sem correspondência" ∧ unmatched_url a = Some path)))
  ∧ (result_url a ≠ "" → ("Baixar resultado", API +:+ result_url a) ∈ shownLinks API a)
  ∧ (∀ path, unmatched_url a = Some path → path ≠ "" →
       ("Baixar sem correspondência", API +:+ path) ∈ shownLinks API a)
  ∧ (length (shownLinks API a) ≤ 2)%nat
  ∧ (∀ l, shownLinks API {| result_url := result_url a;
                            unmatched_url := unmatched_url a;
                            log_url := l |}
          = shownLinks API a).
Proof.
  unfold shownLinks.
  split; [|split; [|split; [|split]]].
  - intros label href. rewrite elem_of_app. intros [Hin | Hin].
    + destruct (result_url a) as [|c r] eqn:Hr; simpl in Hin.
      * by apply elem_of_nil in Hin.
      * apply list_elem_of_singleton in Hin. injection Hin as -> ->.
        exists (String c r). split; [done|]. split; [done|]. by left.
    + destruct (unmatched_url a) as [[|c u]|] eqn:Hu; simpl in Hin;
        try by apply elem_of_nil in Hin.
      apply list_elem_of_singleton in Hin. injection Hin as -> ->.
      exists (String c u). split; [done|]. split; [done|]. by right.
  - intros Hne. apply elem_of_app. left.
    destruct (result_url a); [done|]. simpl. by left.
  - intros path -> Hne. apply elem_of_app. right.
    destruct path; [done|]. simpl. by left.
  - rewrite length_app.
    destruct (JS.truthy (result_url a)); destruct (unmatched_url a) as [u|];
      try destruct (JS.truthy u); simpl; lia.
  - reflexivity.
Qed.
